(** * Policy / Rule conversion (conversionv1v3) of libcalico-go

    A shallow embedding of [lib/upgrade/etcd/conversionv1v3/rule.go] and of
    the parts of the policy converter it is used from, followed by the
    properties of the conversion: nil/empty slices, tag folding, action
    mapping, CIDR normalisation, ICMP presence and the nil-protocol
    precondition. *)

From Stdlib Require Import ZArith List Bool Ascii String Lia.
Import ListNotations.

Local Open Scope string_scope.
Local Open Scope list_scope.
Local Open Scope Z_scope.

(* ================================================================== *)
(** ** Go values *)

(** A Go slice is either [nil] or a (possibly empty) backing sequence.
    [None] is the nil slice, [Some []] is an allocated slice of length 0:
    the conversion treats the two differently. *)
Definition slice (A : Type) : Type := option (list A).

Definition elems {A} (s : slice A) : list A :=
  match s with
  | None => []
  | Some l => l
  end.

Definition len {A} (s : slice A) : nat := List.length (elems s).

Definition is_nil {A} (s : slice A) : bool :=
  match s with
  | None => true
  | Some _ => false
  end.

(** [append(s, x)]: appending to a nil slice allocates. *)
Definition append {A} (s : slice A) (x : A) : slice A :=
  Some (elems s ++ [x]).

(** A Go pointer that is only tested against nil, copied or dereferenced. *)
Definition ptr (A : Type) : Type := option A.

(** Outcome of a call that may dereference a nil pointer or report an
    error value. *)
Inductive result (A : Type) : Type :=
| Ok (a : A)
| Err (msg : string)
| Panic (msg : string).
Arguments Ok {A} a.
Arguments Err {A} msg.
Arguments Panic {A} msg.

Definition bind {A B} (r : result A) (k : A -> result B) : result B :=
  match r with
  | Ok a => k a
  | Err m => Err m
  | Panic m => Panic m
  end.

Notation "x <- c ;; k" := (bind c (fun x => k))
  (at level 61, c at next level, right associativity).

Definition nil_deref : string :=
  "invalid memory address or nil pointer dereference".

(** [*p] *)
Definition deref {A} (p : ptr A) : result A :=
  match p with
  | Some a => Ok a
  | None => Panic nil_deref
  end.

(** [for idx, x := range xs { out[idx] = f(x) }] over a body that may
    panic: elements are converted left to right and the first panic
    aborts the loop. *)
Fixpoint mapM {A B} (f : A -> result B) (xs : list A) : result (list B) :=
  match xs with
  | [] => Ok []
  | x :: xs' =>
      y <- f x ;;
      ys <- mapM f xs' ;;
      Ok (y :: ys)
  end.

(** *** Strings *)

(** Go strings are byte sequences; [string] of [ascii] (8-bit) models
    them directly. *)

Definition is_upper (c : ascii) : bool :=
  let n := N_of_ascii c in ((65 <=? n) && (n <=? 90))%N.

Definition is_lower (c : ascii) : bool :=
  let n := N_of_ascii c in ((97 <=? n) && (n <=? 122))%N.

Definition is_digit (c : ascii) : bool :=
  let n := N_of_ascii c in ((48 <=? n) && (n <=? 57))%N.

Definition lower_byte (c : ascii) : ascii :=
  if is_upper c then ascii_of_N (N_of_ascii c + 32) else c.

(** [strings.ToLower].  On ASCII bytes this is Go's function exactly.  Go
    maps a non-ASCII rune to its lower-case rune; the only runes that
    lower to an ASCII letter are U+212A (to k) and U+0130 (to i), so for
    the comparisons made below, against words without k or i, the byte-wise
    version decides the same equalities. *)
Fixpoint ToLower (s : string) : string :=
  match s with
  | EmptyString => EmptyString
  | String c s' => String (lower_byte c) (ToLower s')
  end.

(** [fmt.Sprintf("(%s) && %s == ''", sel, tag)] *)
Definition sprintf_tag_selector (sel tag : string) : string :=
  ("(" ++ sel ++ ") && " ++ tag ++ " == ''")%string.

(* ================================================================== *)
(** ** Data model *)

Module net.

(** Modelled from the spec: the IP network type [IPNet], declared in
    package [lib/net].  A network is an address of [bits] bits (32 for
    IPv4, 128 for IPv6) together with a prefix length. *)
Record IPNet : Type := mkIPNet {
  bits : nat;
  address : Z;
  prefix : nat
}.

Definition host_bits (n : IPNet) : nat := (bits n - prefix n)%nat.

(** The mask of a prefix: [prefix] one bits followed by the host bits
    all zero. *)
Definition netmask (n : IPNet) : Z :=
  Z.shiftl (Z.ones (Z.of_nat (prefix n))) (Z.of_nat (host_bits n)).

(** Modelled from the spec: the [Network] method of [IPNet], declared in
    package [lib/net]; it "returns the network whose address is masked to
    the network's own prefix length (clears host bits)". *)
Definition Network (n : IPNet) : IPNet :=
  {| bits := bits n;
     address := Z.land (address n) (netmask n);
     prefix := prefix n |}.

(** The host part of the address: the low [host_bits] bits. *)
Definition host_part (n : IPNet) : Z :=
  Z.land (address n) (Z.ones (Z.of_nat (host_bits n))).

End net.

Module numorstring.

(** Modelled from the spec: a protocol identifier is a name or a
    number; the type is declared in [lib/numorstring]. *)
Inductive Protocol : Type :=
| ProtocolFromInt (n : Z)
| ProtocolFromString (s : string).

(** Modelled from the spec: a port match; the conversion only copies
    port lists. *)
Record Port : Type := mkPort {
  MinPort : Z;
  MaxPort : Z
}.

End numorstring.

(** [*float64], only ever copied: the IEEE-754 bit pattern. *)
Definition float64 : Type := Z.

(** The legacy (v1) API shapes, with the fields [ruleAPIToBackend] reads.
    [Type_] stands for the field [Type]. *)
Module apiv1.

Record ICMPFields : Type := mkICMPFields {
  Type_ : ptr Z;
  Code : ptr Z
}.

Record EntityRule : Type := mkEntityRule {
  Tag : string;
  Net : ptr net.IPNet;
  Nets : slice (ptr net.IPNet);
  Selector : string;
  Ports : slice numorstring.Port;
  NotTag : string;
  NotNet : ptr net.IPNet;
  NotNets : slice (ptr net.IPNet);
  NotSelector : string;
  NotPorts : slice numorstring.Port
}.

Record Rule : Type := mkRule {
  Action : string;
  IPVersion : ptr Z;
  Protocol : ptr numorstring.Protocol;
  ICMP : ptr ICMPFields;
  NotProtocol : ptr numorstring.Protocol;
  NotICMP : ptr ICMPFields;
  Source : EntityRule;
  Destination : EntityRule
}.

End apiv1.

(** The backend (key/value) shapes, with the fields the rule conversions
    write and read and those of the policy table. *)
Module model.

Record Rule : Type := mkRule {
  Action : string;
  IPVersion : ptr Z;
  Protocol : ptr numorstring.Protocol;
  ICMPCode : ptr Z;
  ICMPType : ptr Z;
  NotProtocol : ptr numorstring.Protocol;
  NotICMPCode : ptr Z;
  NotICMPType : ptr Z;

  SrcTag : string;
  SrcNet : ptr net.IPNet;
  SrcNets : slice (ptr net.IPNet);
  SrcSelector : string;
  SrcPorts : slice numorstring.Port;
  DstTag : string;
  DstNet : ptr net.IPNet;
  DstNets : slice (ptr net.IPNet);
  DstSelector : string;
  DstPorts : slice numorstring.Port;

  NotSrcTag : string;
  NotSrcNet : ptr net.IPNet;
  NotSrcNets : slice (ptr net.IPNet);
  NotSrcSelector : string;
  NotSrcPorts : slice numorstring.Port;
  NotDstTag : string;
  NotDstNet : ptr net.IPNet;
  NotDstNets : slice (ptr net.IPNet);
  NotDstSelector : string;
  NotDstPorts : slice numorstring.Port
}.

(** Modelled from the spec: the helper behind [AllSrcNets],
    [AllDstNets], [AllNotSrcNets] and [AllNotDstNets] of the backend
    rule, which "expands stored net fields" into one sequence: the
    plural list, followed by the deprecated singular network when it is
    set. *)
Definition combineNets (n : ptr net.IPNet) (nets : slice (ptr net.IPNet))
  : slice (ptr net.IPNet) :=
  match n with
  | None => nets
  | Some _ => Some (elems nets ++ [n])
  end.

Definition AllSrcNets (r : Rule) := combineNets (SrcNet r) (SrcNets r).
Definition AllDstNets (r : Rule) := combineNets (DstNet r) (DstNets r).
Definition AllNotSrcNets (r : Rule) :=
  combineNets (NotSrcNet r) (NotSrcNets r).
Definition AllNotDstNets (r : Rule) :=
  combineNets (NotDstNet r) (NotDstNets r).

Record Policy : Type := mkPolicy {
  Order : ptr float64;
  InboundRules : slice Rule;
  OutboundRules : slice Rule;
  Selector : string;
  DoNotTrack : bool;
  PreDNAT : bool;
  ApplyOnForward : bool;
  Types : slice string
}.

Record PolicyKey : Type := mkPolicyKey { Name : string }.

(** [KVPair.Key] and [KVPair.Value] are interface values; the policy
    converter asserts the policy shapes and reports anything else. *)
Inductive Key : Type :=
| KeyPolicy (k : PolicyKey)
| KeyOther (kind : string).

Inductive Value : Type :=
| ValuePolicy (p : Policy)
| ValueOther (kind : string).

Record KVPair : Type := mkKVPair {
  Key_ : Key;
  Value_ : Value
}.

End model.

(** The current (v3) API shapes, with the fields [ruleBackendToAPI]
    writes and those of the policy table. *)
Module apiv3.

(** Modelled from the spec: [type Action string] with its four values
    Allow, Deny, Log and Pass, declared in package [lib/apis/v3]. *)
Definition Action : Type := string.
Definition Allow : Action := "Allow".
Definition Deny : Action := "Deny".
Definition Log : Action := "Log".
Definition Pass : Action := "Pass".

Record ICMPFields : Type := mkICMPFields {
  Type_ : ptr Z;
  Code : ptr Z
}.

Record EntityRule : Type := mkEntityRule {
  Nets : slice string;
  Selector : string;
  Ports : slice numorstring.Port;
  NotNets : slice string;
  NotSelector : string;
  NotPorts : slice numorstring.Port
}.

Record Rule : Type := mkRule {
  Action_ : Action;
  IPVersion : ptr Z;
  Protocol : ptr numorstring.Protocol;
  ICMP : ptr ICMPFields;
  NotProtocol : ptr numorstring.Protocol;
  NotICMP : ptr ICMPFields;
  Source : EntityRule;
  Destination : EntityRule
}.

(** [type PolicyType string], declared in package [lib/apis/v3]. *)
Definition PolicyType : Type := string.
Definition PolicyTypeIngress : PolicyType := "Ingress".
Definition PolicyTypeEgress : PolicyType := "Egress".

Record GlobalNetworkPolicySpec : Type := mkGlobalNetworkPolicySpec {
  Order : ptr float64;
  Ingress : slice Rule;
  Egress : slice Rule;
  Selector_ : string;
  DoNotTrack : bool;
  PreDNAT : bool;
  ApplyOnForward : bool;
  Types : slice PolicyType
}.

Record GlobalNetworkPolicy : Type := mkGlobalNetworkPolicy {
  Name : string;
  Spec : GlobalNetworkPolicySpec
}.

End apiv3.

(* ================================================================== *)
(** ** rule.go *)

(** *** The deprecation warning *)

(** [logDeprecationOnce] is a [sync.Once] guarding one warning line: the
    process-wide state is whether the guarded action has run, and the log
    written so far. *)
Record LogState : Type := mkLogState {
  onceDone : bool;
  logLines : list string
}.

Definition deprecationWarning : string :=
  "The Net and NotNet fields in Source/Destination " ++
  "EntityRules are deprecated.  Please use Nets or NotNets.".

(** [logDeprecationOnce.Do(func() { log.Warning(...) })] *)
Definition logDeprecationOnce_Do (st : LogState) : LogState :=
  if onceDone st then st
  else {| onceDone := true; logLines := logLines st ++ [deprecationWarning] |}.

Definition is_some {A} (p : ptr A) : bool :=
  match p with
  | Some _ => true
  | None => false
  end.

(** *** CIDR normalisation *)

(** [normalizeIPNet] converts an IPNet to a network by ensuring the IP
    address is correctly masked. *)
Definition normalizeIPNet (n : ptr net.IPNet) : ptr net.IPNet :=
  match n with
  | None => None
  | Some x => Some (net.Network x)
  end.

(** [normalizeIPNets]: nil stays nil, otherwise a slice of the same length
    with every entry normalised. *)
Definition normalizeIPNets (nets : slice (ptr net.IPNet))
  : slice (ptr net.IPNet) :=
  match nets with
  | None => None
  | Some l => Some (map normalizeIPNet l)
  end.

(** *** Actions *)

(** [ruleActionAPIToBackend] converts the rule action field value from the
    API value to the equivalent backend value. *)
Definition ruleActionAPIToBackend (action : string) : string :=
  if String.eqb action "Pass" then "next-tier" else action.

(** The [for ... range] of [ruleActionToV3API]: the first listed action
    that equals the input up to case is returned. *)
Fixpoint matchAction (inAction : string) (actions : list apiv3.Action)
  : option apiv3.Action :=
  match actions with
  | [] => None
  | action :: rest =>
      if String.eqb (ToLower inAction) (ToLower action) then Some action
      else matchAction inAction rest
  end.

(** [ruleActionToV3API] converts the rule action field value from the
    backend value to the equivalent API value. *)
Definition ruleActionToV3API (inAction : string) : apiv3.Action :=
  if String.eqb inAction EmptyString then apiv3.Allow
  else if String.eqb inAction "next-tier" then apiv3.Pass
  else
    match matchAction inAction
            [apiv3.Allow; apiv3.Deny; apiv3.Log; apiv3.Pass] with
    | Some action => action
    | None => inAction
    end.

(** *** Legacy API to backend *)

(** [ruleAPIToBackend] converts an API Rule structure to a Backend Rule
    structure.  It may run the once-only warning, so it takes and returns
    the log state. *)
Definition ruleAPIToBackend (ar : apiv1.Rule) (st : LogState)
  : model.Rule * LogState :=
  let icmpCode :=
    match apiv1.ICMP ar with
    | Some f => apiv1.Code f
    | None => None
    end in
  let icmpType :=
    match apiv1.ICMP ar with
    | Some f => apiv1.Type_ f
    | None => None
    end in
  let notICMPCode :=
    match apiv1.NotICMP ar with
    | Some f => apiv1.Code f
    | None => None
    end in
  let notICMPType :=
    match apiv1.NotICMP ar with
    | Some f => apiv1.Type_ f
    | None => None
    end in
  let st' :=
    if is_some (apiv1.Net (apiv1.Source ar))
       || is_some (apiv1.NotNet (apiv1.Source ar))
       || is_some (apiv1.Net (apiv1.Destination ar))
       || is_some (apiv1.NotNet (apiv1.Destination ar))
    then logDeprecationOnce_Do st
    else st in
  ({| model.Action := ruleActionAPIToBackend (apiv1.Action ar);
      model.IPVersion := apiv1.IPVersion ar;
      model.Protocol := apiv1.Protocol ar;
      model.ICMPCode := icmpCode;
      model.ICMPType := icmpType;
      model.NotProtocol := apiv1.NotProtocol ar;
      model.NotICMPCode := notICMPCode;
      model.NotICMPType := notICMPType;

      model.SrcTag := apiv1.Tag (apiv1.Source ar);
      model.SrcNet := apiv1.Net (apiv1.Source ar);
      model.SrcNets := apiv1.Nets (apiv1.Source ar);
      model.SrcSelector := apiv1.Selector (apiv1.Source ar);
      model.SrcPorts := apiv1.Ports (apiv1.Source ar);
      model.DstTag := apiv1.Tag (apiv1.Destination ar);
      model.DstNet := normalizeIPNet (apiv1.Net (apiv1.Destination ar));
      model.DstNets := normalizeIPNets (apiv1.Nets (apiv1.Destination ar));
      model.DstSelector := apiv1.Selector (apiv1.Destination ar);
      model.DstPorts := apiv1.Ports (apiv1.Destination ar);

      model.NotSrcTag := apiv1.NotTag (apiv1.Source ar);
      model.NotSrcNet := apiv1.NotNet (apiv1.Source ar);
      model.NotSrcNets := apiv1.NotNets (apiv1.Source ar);
      model.NotSrcSelector := apiv1.NotSelector (apiv1.Source ar);
      model.NotSrcPorts := apiv1.NotPorts (apiv1.Source ar);
      model.NotDstTag := apiv1.NotTag (apiv1.Destination ar);
      model.NotDstNet := normalizeIPNet (apiv1.NotNet (apiv1.Destination ar));
      model.NotDstNets :=
        normalizeIPNets (apiv1.NotNets (apiv1.Destination ar));
      model.NotDstSelector := apiv1.NotSelector (apiv1.Destination ar);
      model.NotDstPorts := apiv1.NotPorts (apiv1.Destination ar) |},
   st').

(** The loop of [rulesAPIToBackend]: rules are converted in order, each
    seeing the log state left by the previous one. *)
Fixpoint rulesAPIToBackend_loop (ars : list apiv1.Rule) (st : LogState)
  : list model.Rule * LogState :=
  match ars with
  | [] => ([], st)
  | ar :: rest =>
      let (br, st1) := ruleAPIToBackend ar st in
      let (brs, st2) := rulesAPIToBackend_loop rest st1 in
      (br :: brs, st2)
  end.

(** [rulesAPIToBackend] converts an API Rule structure slice to a Backend
    Rule structure slice. *)
Definition rulesAPIToBackend (ars : slice apiv1.Rule) (st : LogState)
  : slice model.Rule * LogState :=
  match ars with
  | None => (Some [], st)
  | Some l =>
      let (brs, st') := rulesAPIToBackend_loop l st in
      (Some brs, st')
  end.

(** *** Backend to current API *)

Section BackendToAPI.

(** The [String] method of the network type, called on each pointer of
    a network slice; declared in [lib/net]. *)
Variable IPNet_String : ptr net.IPNet -> string.

(** [numorstring.ProtocolV3FromProtocolV1], the translation of the
    legacy protocol encoding to the current one; declared in
    [lib/numorstring]. *)
Variable ProtocolV3FromProtocolV1 :
  numorstring.Protocol -> numorstring.Protocol.

(** [var out []string; for _, net := range nets { out = append(out,
    net.String()) }] *)
Definition netsToStrings (nets : slice (ptr net.IPNet)) : slice string :=
  fold_left (fun out n => append out (IPNet_String n)) (elems nets) None.

(** Tags are deprecated in v3.0+, so a tag is folded into the selector. *)
Definition tagToSelector (selector tag : string) : string :=
  if negb (String.eqb tag EmptyString)
  then sprintf_tag_selector selector tag
  else selector.

(** [ruleBackendToAPI] converts a Backend Rule structure to an API Rule
    structure.  [*br.Protocol] is evaluated after the networks and the
    selectors have been computed and panics on a nil pointer. *)
Definition ruleBackendToAPI (br : model.Rule) : result apiv3.Rule :=
  let icmp :=
    if is_some (model.ICMPCode br) || is_some (model.ICMPType br)
    then Some {| apiv3.Code := model.ICMPCode br;
                 apiv3.Type_ := model.ICMPType br |}
    else None in
  let notICMP :=
    if is_some (model.NotICMPCode br) || is_some (model.NotICMPType br)
    then Some {| apiv3.Code := model.NotICMPCode br;
                 apiv3.Type_ := model.NotICMPType br |}
    else None in
  let srcNetsStr := netsToStrings (model.AllSrcNets br) in
  let dstNetsStr := netsToStrings (model.AllDstNets br) in
  let notSrcNetsStr := netsToStrings (model.AllNotSrcNets br) in
  let notDstNetsStr := netsToStrings (model.AllNotDstNets br) in
  let srcSelector := tagToSelector (model.SrcSelector br) (model.SrcTag br) in
  let dstSelector := tagToSelector (model.DstSelector br) (model.DstTag br) in
  let notSrcSelector :=
    tagToSelector (model.NotSrcSelector br) (model.NotSrcTag br) in
  let notDstSelector :=
    tagToSelector (model.NotDstSelector br) (model.NotDstTag br) in
  p <- deref (model.Protocol br) ;;
  let v3Protocol := ProtocolV3FromProtocolV1 p in
  Ok {| apiv3.Action_ := ruleActionToV3API (model.Action br);
        apiv3.IPVersion := model.IPVersion br;
        apiv3.Protocol := Some v3Protocol;
        apiv3.ICMP := icmp;
        apiv3.NotProtocol := model.NotProtocol br;
        apiv3.NotICMP := notICMP;
        apiv3.Source :=
          {| apiv3.Nets := srcNetsStr;
             apiv3.Selector := srcSelector;
             apiv3.Ports := model.SrcPorts br;
             apiv3.NotNets := notSrcNetsStr;
             apiv3.NotSelector := notSrcSelector;
             apiv3.NotPorts := model.NotSrcPorts br |};
        apiv3.Destination :=
          {| apiv3.Nets := dstNetsStr;
             apiv3.Selector := dstSelector;
             apiv3.Ports := model.DstPorts br;
             apiv3.NotNets := notDstNetsStr;
             apiv3.NotSelector := notDstSelector;
             apiv3.NotPorts := model.NotDstPorts br |} |}.

(** [rulesV1BackendToV3API] converts a Backend Rule structure slice to
    an API Rule structure slice. *)
Definition rulesV1BackendToV3API (brs : slice model.Rule)
  : result (slice apiv3.Rule) :=
  match brs with
  | None => Ok None
  | Some l =>
      ars <- mapM ruleBackendToAPI l ;;
      Ok (Some ars)
  end.

End BackendToAPI.

(* ================================================================== *)
(** ** The policy converter *)

(** *** Name normalisation *)

Definition is_alnum (c : ascii) : bool := is_lower c || is_digit c.

Definition is_hyphen (c : ascii) : bool := Ascii.eqb c "-".

(** State of the scan inside a run of separators: either only hyphens
    have been met since the last alphanumeric character ([Pending n]
    holds how many, none of them written yet), or the run contained a
    disallowed character and its single separator has been written. *)
Inductive run : Type :=
| Pending (n : nat)
| Collapsed.

Fixpoint hyphens (n : nat) : string :=
  match n with
  | O => EmptyString
  | S n' => String "-" (hyphens n')
  end.

Definition flush (r : run) : string :=
  match r with
  | Pending n => hyphens n
  | Collapsed => EmptyString
  end.

Fixpoint collapseRuns (r : run) (s : string) : string :=
  match s with
  | EmptyString => flush r
  | String c s' =>
      if is_alnum c then
        (flush r ++ String c (collapseRuns (Pending 0) s'))%string
      else if is_hyphen c then
        match r with
        | Pending n => collapseRuns (Pending (S n)) s'
        | Collapsed => collapseRuns Collapsed s'
        end
      else
        match r with
        | Pending _ => String "." (collapseRuns Collapsed s')
        | Collapsed => collapseRuns Collapsed s'
        end
  end.

(** Modelled from the spec: the name normaliser [convertName] of the
    policy converter, declared beside policy.go.  It "lowercases the input
    and rewrites any run of characters disallowed by the current naming
    scheme (non-alphanumeric, non-hyphen) by collapsing adjacent
    disallowed characters (e.g. a dot-hyphen-dot run) into a single
    allowed separator": hyphens standing alone are kept, and a run of
    separators holding a disallowed character becomes one dot. *)
Definition convertName (v1Name : string) : string :=
  collapseRuns (Pending 0) (ToLower v1Name).

(** *** Backend policy to current API *)

Section PolicyConverter.

Variable IPNet_String : ptr net.IPNet -> string.
Variable ProtocolV3FromProtocolV1 :
  numorstring.Protocol -> numorstring.Protocol.

(** The mapping of the backend's policy type tokens to the typed values
    of the current API; the spec fixes only that order is preserved. *)
Variable policyTypeToV3 : string -> apiv3.PolicyType.

Definition policyTypesToV3 (ts : slice string) : slice apiv3.PolicyType :=
  match ts with
  | None => None
  | Some l => Some (map policyTypeToV3 l)
  end.

(** Modelled from the spec: [BackendV1ToAPIV3] of the policy converter,
    declared in policy.go and exercised by policy_test.go.  "name =
    normalize(legacy name); Spec.Ingress/Egress = rule sequences
    converted; Spec flags copied, except ApplyOnForward recomputed" as
    [ApplyOnForward_in OR (DoNotTrack AND PreDNAT)]; "Types mapped to
    the current API's typed enum sequence, order preserved"; a key or
    value of another shape is reported as an error. *)
Definition BackendV1ToAPIV3 (kvp : model.KVPair)
  : result apiv3.GlobalNetworkPolicy :=
  match model.Value_ kvp, model.Key_ kvp with
  | model.ValuePolicy bp, model.KeyPolicy bk =>
      ingress <- rulesV1BackendToV3API IPNet_String
                   ProtocolV3FromProtocolV1 (model.InboundRules bp) ;;
      egress <- rulesV1BackendToV3API IPNet_String
                  ProtocolV3FromProtocolV1 (model.OutboundRules bp) ;;
      Ok {| apiv3.Name := convertName (model.Name bk);
            apiv3.Spec :=
              {| apiv3.Order := model.Order bp;
                 apiv3.Ingress := ingress;
                 apiv3.Egress := egress;
                 apiv3.Selector_ := model.Selector bp;
                 apiv3.DoNotTrack := model.DoNotTrack bp;
                 apiv3.PreDNAT := model.PreDNAT bp;
                 apiv3.ApplyOnForward :=
                   model.ApplyOnForward bp
                   || (model.DoNotTrack bp && model.PreDNAT bp);
                 apiv3.Types := policyTypesToV3 (model.Types bp) |} |}
  | model.ValueOther _, _ => Err "value is not a valid Policy resource"
  | _, model.KeyOther _ => Err "key is not a valid Policy resource key"
  end.

End PolicyConverter.

(** *** Sample values used by the examples *)

Definition tcp : numorstring.Protocol := numorstring.ProtocolFromString "tcp".

Definition emptyBackendRule : model.Rule :=
  {| model.Action := EmptyString;
     model.IPVersion := None;
     model.Protocol := None;
     model.ICMPCode := None;
     model.ICMPType := None;
     model.NotProtocol := None;
     model.NotICMPCode := None;
     model.NotICMPType := None;
     model.SrcTag := EmptyString;
     model.SrcNet := None;
     model.SrcNets := None;
     model.SrcSelector := EmptyString;
     model.SrcPorts := None;
     model.DstTag := EmptyString;
     model.DstNet := None;
     model.DstNets := None;
     model.DstSelector := EmptyString;
     model.DstPorts := None;
     model.NotSrcTag := EmptyString;
     model.NotSrcNet := None;
     model.NotSrcNets := None;
     model.NotSrcSelector := EmptyString;
     model.NotSrcPorts := None;
     model.NotDstTag := EmptyString;
     model.NotDstNet := None;
     model.NotDstNets := None;
     model.NotDstSelector := EmptyString;
     model.NotDstPorts := None |}.

Definition emptyEntityRule : apiv1.EntityRule :=
  {| apiv1.Tag := EmptyString;
     apiv1.Net := None;
     apiv1.Nets := None;
     apiv1.Selector := EmptyString;
     apiv1.Ports := None;
     apiv1.NotTag := EmptyString;
     apiv1.NotNet := None;
     apiv1.NotNets := None;
     apiv1.NotSelector := EmptyString;
     apiv1.NotPorts := None |}.

Definition emptyAPIRule : apiv1.Rule :=
  {| apiv1.Action := EmptyString;
     apiv1.IPVersion := None;
     apiv1.Protocol := None;
     apiv1.ICMP := None;
     apiv1.NotProtocol := None;
     apiv1.NotICMP := None;
     apiv1.Source := emptyEntityRule;
     apiv1.Destination := emptyEntityRule |}.

Definition freshLog : LogState := {| onceDone := false; logLines := [] |}.

(** [a.b.c.d/p] as an IPv4 network. *)
Definition ipv4 (a b c d : Z) (p : nat) : net.IPNet :=
  {| net.bits := 32;
     net.address := Z.lor (Z.shiftl a 24)
                      (Z.lor (Z.shiftl b 16) (Z.lor (Z.shiftl c 8) d));
     net.prefix := p |}.

(** A backend rule exercising every part of the conversion: a tag with a
    selector on the source side, unmasked networks, an ICMP code without
    a type. *)
Definition sampleBackendRule : model.Rule :=
  {| model.Action := "next-tier";
     model.IPVersion := Some 4;
     model.Protocol := Some tcp;
     model.ICMPCode := Some 7;
     model.ICMPType := None;
     model.NotProtocol := None;
     model.NotICMPCode := None;
     model.NotICMPType := None;
     model.SrcTag := "tag1";
     model.SrcNet := Some (ipv4 10 0 0 5 24);
     model.SrcNets := Some [Some (ipv4 192 168 1 1 16)];
     model.SrcSelector := "label1 == 'value1'";
     model.SrcPorts := Some [numorstring.mkPort 80 80];
     model.DstTag := EmptyString;
     model.DstNet := None;
     model.DstNets := Some [];
     model.DstSelector := "role == 'db'";
     model.DstPorts := None;
     model.NotSrcTag := "tag2";
     model.NotSrcNet := None;
     model.NotSrcNets := None;
     model.NotSrcSelector := EmptyString;
     model.NotSrcPorts := None;
     model.NotDstTag := EmptyString;
     model.NotDstNet := None;
     model.NotDstNets := None;
     model.NotDstSelector := EmptyString;
     model.NotDstPorts := None |}.

(** Instances of the two functions of other packages, for evaluating
    the conversion on sample values. *)
Definition sampleString (n : ptr net.IPNet) : string :=
  match n with
  | Some x => if (net.prefix x <=? 16)%nat then "wide" else "narrow"
  | None => "<nil>"
  end.

Definition sampleProtocol (p : numorstring.Protocol) : numorstring.Protocol :=
  match p with
  | numorstring.ProtocolFromString "tcp" => numorstring.ProtocolFromString "TCP"
  | _ => p
  end.

(** What the tag folding must produce for one selector/tag pair. *)
Definition merged (selector tag out : string) : Prop :=
  (tag = EmptyString -> out = selector) /\
  (tag <> EmptyString ->
   out = ("(" ++ selector ++ ") && " ++ tag ++ " == ''")%string).

(** At least one of the two ICMP sub-fields is set. *)
Definition subfield_set (code type : ptr Z) : Prop :=
  code <> None \/ type <> None.

(** A legacy rule carrying the same unmasked network on both sides. *)
Definition unmaskedEntityRule : apiv1.EntityRule :=
  {| apiv1.Tag := "tag1";
     apiv1.Net := Some (ipv4 10 0 0 5 24);
     apiv1.Nets := Some [Some (ipv4 10 0 0 5 24); None];
     apiv1.Selector := "label1 == 'value1'";
     apiv1.Ports := Some [numorstring.mkPort 80 90];
     apiv1.NotTag := EmptyString;
     apiv1.NotNet := Some (ipv4 172 16 3 9 12);
     apiv1.NotNets := None;
     apiv1.NotSelector := EmptyString;
     apiv1.NotPorts := None |}.

Definition sampleAPIRule : apiv1.Rule :=
  {| apiv1.Action := "Pass";
     apiv1.IPVersion := Some 4;
     apiv1.Protocol := Some tcp;
     apiv1.ICMP := Some {| apiv1.Type_ := None; apiv1.Code := None |};
     apiv1.NotProtocol := None;
     apiv1.NotICMP := Some {| apiv1.Type_ := Some 8; apiv1.Code := None |};
     apiv1.Source := unmaskedEntityRule;
     apiv1.Destination := unmaskedEntityRule |}.

(** A backend policy with one inbound rule and an empty outbound list,
    as in the flag rows of the policy table, for given values of the
    three flags. *)
Definition flagsPolicy (doNotTrack preDNAT applyOnForward : bool)
  : model.KVPair :=
  {| model.Key_ := model.KeyPolicy {| model.Name := "RAWR" |};
     model.Value_ :=
       model.ValuePolicy
         {| model.Order := Some 4652007308841189376;
            model.InboundRules := Some [sampleBackendRule];
            model.OutboundRules := Some [];
            model.Selector := EmptyString;
            model.DoNotTrack := doNotTrack;
            model.PreDNAT := preDNAT;
            model.ApplyOnForward := applyOnForward;
            model.Types := Some ["ingress"] |} |}.

Definition samplePolicyType (t : string) : apiv3.PolicyType :=
  if String.eqb t "ingress" then apiv3.PolicyTypeIngress
  else if String.eqb t "egress" then apiv3.PolicyTypeEgress
  else t.

(** The condition under which [ruleAPIToBackend] reaches the once-only
    warning: one of the four deprecated singular network fields is set.
    Tags, deprecated as well, are not part of it. *)
Definition usesDeprecatedNet (ar : apiv1.Rule) : bool :=
  is_some (apiv1.Net (apiv1.Source ar))
  || is_some (apiv1.NotNet (apiv1.Source ar))
  || is_some (apiv1.Net (apiv1.Destination ar))
  || is_some (apiv1.NotNet (apiv1.Destination ar)).

(** The log state after the warning has been written. *)
Definition warned (st : LogState) : LogState :=
  {| onceDone := true; logLines := logLines st ++ [deprecationWarning] |}.

(* ================================================================== *)
(** ** Properties *)

Lemma tagToSelector_merged (selector tag : string) :
  merged selector tag (tagToSelector selector tag).
Proof.
  unfold merged, tagToSelector, sprintf_tag_selector.
  destruct (String.eqb_spec tag EmptyString) as [E | E]; cbn.
  - split; [reflexivity | intros H; contradiction].
  - split; [intros H; contradiction | reflexivity].
Qed.

Lemma mapM_length {A B} (f : A -> result B) (xs : list A) (ys : list B) :
  mapM f xs = Ok ys -> List.length ys = List.length xs.
Proof.
  revert ys; induction xs as [| x xs IH]; intros ys H; cbn in H.
  - inversion H; reflexivity.
  - destruct (f x) as [y | m | m]; cbn in H; try discriminate.
    destruct (mapM f xs) as [zs | m | m]; cbn in H; try discriminate.
    inversion H; subst; cbn. f_equal. apply IH; reflexivity.
Qed.

Lemma rulesAPIToBackend_loop_length (ars : list apiv1.Rule) (st : LogState) :
  List.length (fst (rulesAPIToBackend_loop ars st)) = List.length ars.
Proof.
  revert st; induction ars as [| ar ars IH]; intros st.
  - reflexivity.
  - change (rulesAPIToBackend_loop (ar :: ars) st)
      with (let (br, st1) := ruleAPIToBackend ar st in
            let (brs, st2) := rulesAPIToBackend_loop ars st1 in
            (br :: brs, st2)).
    destruct (ruleAPIToBackend ar st) as [br st1].
    specialize (IH st1).
    destruct (rulesAPIToBackend_loop ars st1) as [brs st2].
    cbn in *. f_equal; exact IH.
Qed.

(** The once-only warning: a call either leaves the log state alone or
    is the one call that runs the guarded action. *)
Lemma ruleAPIToBackend_log (ar : apiv1.Rule) (st : LogState) :
  snd (ruleAPIToBackend ar st) = st \/
  (onceDone st = false /\
   snd (ruleAPIToBackend ar st)
   = {| onceDone := true;
        logLines := logLines st ++ [deprecationWarning] |}).
Proof.
  unfold ruleAPIToBackend; cbn [snd].
  destruct (is_some (apiv1.Net (apiv1.Source ar))
            || is_some (apiv1.NotNet (apiv1.Source ar))
            || is_some (apiv1.Net (apiv1.Destination ar))
            || is_some (apiv1.NotNet (apiv1.Destination ar)));
    [| left; reflexivity].
  unfold logDeprecationOnce_Do.
  destruct (onceDone st) eqn:E; [left; reflexivity | right].
  split; reflexivity.
Qed.

(** However many rules are converted, the warning is written at most
    once, and never again after it has been written. *)
Lemma deprecation_logged_at_most_once
  (ars : list apiv1.Rule) (st : LogState) :
  snd (rulesAPIToBackend_loop ars st) = st \/
  (onceDone st = false /\
   snd (rulesAPIToBackend_loop ars st)
   = {| onceDone := true;
        logLines := logLines st ++ [deprecationWarning] |}).
Proof.
  revert st; induction ars as [| ar ars IH]; intros st.
  - left; reflexivity.
  - change (rulesAPIToBackend_loop (ar :: ars) st)
      with (let (br, st1) := ruleAPIToBackend ar st in
            let (brs, st2) := rulesAPIToBackend_loop ars st1 in
            (br :: brs, st2)).
    pose proof (ruleAPIToBackend_log ar st) as H1.
    destruct (ruleAPIToBackend ar st) as [br st1]; cbn [snd] in H1.
    pose proof (IH st1) as H2.
    destruct (rulesAPIToBackend_loop ars st1) as [brs st2];
      cbn [snd] in H2 |- *.
    destruct H1 as [-> | [E ->]].
    + exact H2.
    + right. split; [exact E |].
      destruct H2 as [-> | [F _]]; [reflexivity | discriminate F].
Qed.

Section RuleProperties.

Variable IPNet_String : ptr net.IPNet -> string.
Variable ProtocolV3FromProtocolV1 :
  numorstring.Protocol -> numorstring.Protocol.

(** C2.  A nil legacy rule slice is converted to an empty, non-nil
    backend slice, and no legacy slice is ever converted to nil; a nil
    backend slice is converted to nil in the current API, and whenever
    the backend-to-current conversion returns, its result is nil exactly
    when its argument is, with the same length: on that leg nil stays
    nil and empty stays empty. *)
Theorem rules_nil_and_empty_per_leg :
  (forall st, rulesAPIToBackend None st = (Some [], st)) /\
  (forall ars st,
      is_nil (fst (rulesAPIToBackend ars st)) = false /\
      len (fst (rulesAPIToBackend ars st)) = len ars) /\
  rulesV1BackendToV3API IPNet_String ProtocolV3FromProtocolV1 None
  = Ok None /\
  rulesV1BackendToV3API IPNet_String ProtocolV3FromProtocolV1 (Some [])
  = Ok (Some []) /\
  (forall brs ars,
      rulesV1BackendToV3API IPNet_String ProtocolV3FromProtocolV1 brs
      = Ok ars ->
      is_nil ars = is_nil brs /\ len ars = len brs).
Proof.
  repeat split.
  - destruct ars as [l |]; cbn; [| reflexivity].
    destruct (rulesAPIToBackend_loop l st); reflexivity.
  - destruct ars as [l |]; cbn; [| reflexivity].
    pose proof (rulesAPIToBackend_loop_length l st) as L.
    destruct (rulesAPIToBackend_loop l st); exact L.
  - destruct brs as [l |]; cbn in H.
    + destruct (mapM _ l); cbn in H; try discriminate.
      inversion H; reflexivity.
    + inversion H; reflexivity.
  - destruct brs as [l |]; cbn in H.
    + destruct (mapM _ l) as [ys | |] eqn:M; cbn in H; try discriminate.
      inversion H; subst; cbn. eapply mapM_length; exact M.
    + inversion H; reflexivity.
Qed.

(** C3.  For a backend rule that converts (its protocol is set), each
    of the four selectors of the result - source and destination, match
    and negated match - is the rule's own selector when the matching
    tag is empty, and otherwise exactly
    ["(" + selector + ") && " + tag + " == ''"]. *)
Theorem tags_fold_into_selectors
  (br : model.Rule) (p : numorstring.Protocol) :
  model.Protocol br = Some p ->
  exists ar,
    ruleBackendToAPI IPNet_String ProtocolV3FromProtocolV1 br = Ok ar /\
    merged (model.SrcSelector br) (model.SrcTag br)
           (apiv3.Selector (apiv3.Source ar)) /\
    merged (model.DstSelector br) (model.DstTag br)
           (apiv3.Selector (apiv3.Destination ar)) /\
    merged (model.NotSrcSelector br) (model.NotSrcTag br)
           (apiv3.NotSelector (apiv3.Source ar)) /\
    merged (model.NotDstSelector br) (model.NotDstTag br)
           (apiv3.NotSelector (apiv3.Destination ar)).
Proof.
  intros HP. unfold ruleBackendToAPI. rewrite HP; cbn.
  eexists; split; [reflexivity |]; cbn.
  repeat split; apply tagToSelector_merged.
Qed.

End RuleProperties.

Lemma rules_nil_and_empty_per_leg_witness :
  exists ars,
    rulesV1BackendToV3API sampleString sampleProtocol
      (Some [sampleBackendRule; sampleBackendRule]) = Ok ars /\
    is_nil ars = false /\ len ars = 2%nat.
Proof.
  destruct (rules_nil_and_empty_per_leg sampleString sampleProtocol)
    as (_ & _ & _ & _ & H).
  eexists. split; [vm_compute; reflexivity |].
  apply (H (Some [sampleBackendRule; sampleBackendRule])).
  vm_compute; reflexivity.
Defined.

Lemma tags_fold_into_selectors_witness :
  exists ar,
    ruleBackendToAPI sampleString sampleProtocol sampleBackendRule = Ok ar /\
    merged "label1 == 'value1'" "tag1" (apiv3.Selector (apiv3.Source ar)) /\
    merged "role == 'db'" EmptyString
           (apiv3.Selector (apiv3.Destination ar)) /\
    merged EmptyString "tag2" (apiv3.NotSelector (apiv3.Source ar)) /\
    merged EmptyString EmptyString
           (apiv3.NotSelector (apiv3.Destination ar)).
Proof.
  apply (tags_fold_into_selectors sampleString sampleProtocol
           sampleBackendRule tcp).
  reflexivity.
Defined.

(** The example of the spec: tag ["tag1"] with selector
    ["label1 == 'value1'"]. *)
Example tag1_selector :
  match ruleBackendToAPI sampleString sampleProtocol sampleBackendRule with
  | Ok ar =>
      apiv3.Selector (apiv3.Source ar) = "(label1 == 'value1') && tag1 == ''"
      /\ apiv3.Selector (apiv3.Destination ar) = "role == 'db'"
      /\ apiv3.NotSelector (apiv3.Source ar) = "() && tag2 == ''"
  | _ => False
  end.
Proof. cbn. repeat split. Qed.

(** The four actions of the current API, in the order they are tried. *)
Lemma ToLower_current_actions :
  map ToLower [apiv3.Allow; apiv3.Deny; apiv3.Log; apiv3.Pass]
  = ["allow"; "deny"; "log"; "pass"].
Proof. reflexivity. Qed.

Lemma matchAction_current (a c : string) :
  In c [apiv3.Allow; apiv3.Deny; apiv3.Log; apiv3.Pass] ->
  ToLower a = ToLower c ->
  matchAction a [apiv3.Allow; apiv3.Deny; apiv3.Log; apiv3.Pass] = Some c.
Proof.
  intros Hin H. unfold matchAction. rewrite H.
  cbn in Hin.
  destruct Hin as [<- | [<- | [<- | [<- | []]]]]; reflexivity.
Qed.

Lemma matchAction_none (a : string) (cs : list apiv3.Action) :
  (forall c, In c cs -> ToLower a <> ToLower c) ->
  matchAction a cs = None.
Proof.
  induction cs as [| c cs IH]; intros H; cbn.
  - reflexivity.
  - destruct (String.eqb_spec (ToLower a) (ToLower c)) as [E | E].
    + exfalso. apply (H c); [left; reflexivity | exact E].
    + apply IH. intros c' Hc'. apply H. right; exact Hc'.
Qed.

(** C4.  Legacy ["Pass"] becomes the backend token ["next-tier"] and
    every other legacy action is unchanged; from the backend, the empty
    action becomes [Allow], ["next-tier"] becomes [Pass], a token equal up
    to case to one of Allow, Deny, Log, Pass becomes that action, and a
    token matching none of them is passed through as it is; so legacy
    ["Pass"] arrives as [Pass]. *)
Theorem action_mapping :
  ruleActionAPIToBackend "Pass" = "next-tier" /\
  (forall a, a <> "Pass" -> ruleActionAPIToBackend a = a) /\
  ruleActionToV3API EmptyString = apiv3.Allow /\
  ruleActionToV3API "next-tier" = apiv3.Pass /\
  (forall a c,
      In c [apiv3.Allow; apiv3.Deny; apiv3.Log; apiv3.Pass] ->
      ToLower a = ToLower c ->
      ruleActionToV3API a = c) /\
  (forall a,
      a <> EmptyString -> a <> "next-tier" ->
      (forall c, In c [apiv3.Allow; apiv3.Deny; apiv3.Log; apiv3.Pass] ->
                 ToLower a <> ToLower c) ->
      ruleActionToV3API a = a) /\
  ruleActionToV3API (ruleActionAPIToBackend "Pass") = apiv3.Pass.
Proof.
  split; [reflexivity |].
  split.
  { intros a Ha. unfold ruleActionAPIToBackend.
    destruct (String.eqb_spec a "Pass"); [contradiction | reflexivity]. }
  split; [reflexivity |].
  split; [reflexivity |].
  split.
  { intros a c Hin H. unfold ruleActionToV3API.
    destruct (String.eqb_spec a EmptyString) as [E | E].
    { subst a. cbn in Hin, H.
      destruct Hin as [<- | [<- | [<- | [<- | []]]]]; discriminate H. }
    destruct (String.eqb_spec a "next-tier") as [E' | E'].
    { subst a. cbn in Hin, H.
      destruct Hin as [<- | [<- | [<- | [<- | []]]]]; discriminate H. }
    rewrite (matchAction_current a c Hin H). reflexivity. }
  split; [| reflexivity].
  intros a E E' H. unfold ruleActionToV3API.
  destruct (String.eqb_spec a EmptyString); [contradiction |].
  destruct (String.eqb_spec a "next-tier"); [contradiction |].
  rewrite (matchAction_none a _ H). reflexivity.
Qed.

Lemma action_mapping_witness :
  ruleActionAPIToBackend "Deny" = "Deny" /\
  ruleActionToV3API "DENY" = apiv3.Deny /\
  ruleActionToV3API "Reject" = "Reject".
Proof.
  destruct action_mapping as (_ & Hother & _ & _ & Hfold & Hopaque & _).
  split; [| split].
  - apply Hother. discriminate.
  - apply Hfold; [right; left; reflexivity | reflexivity].
  - apply Hopaque; [discriminate | discriminate |].
    intros c Hc. cbn in Hc.
    destruct Hc as [<- | [<- | [<- | [<- | []]]]]; discriminate.
Defined.

(** C5.  On the legacy-to-backend leg the four destination-side network
    fields are the normalised legacy ones, while the four source-side
    network fields, the tags, selectors, ports, IP version and protocols
    are the legacy values themselves. *)
Theorem only_destination_networks_normalized
  (ar : apiv1.Rule) (st : LogState) :
  exists br st',
    ruleAPIToBackend ar st = (br, st') /\
    (* destination side: normalised *)
    model.DstNet br = normalizeIPNet (apiv1.Net (apiv1.Destination ar)) /\
    model.DstNets br = normalizeIPNets (apiv1.Nets (apiv1.Destination ar)) /\
    model.NotDstNet br
    = normalizeIPNet (apiv1.NotNet (apiv1.Destination ar)) /\
    model.NotDstNets br
    = normalizeIPNets (apiv1.NotNets (apiv1.Destination ar)) /\
    (* source side: copied *)
    model.SrcNet br = apiv1.Net (apiv1.Source ar) /\
    model.SrcNets br = apiv1.Nets (apiv1.Source ar) /\
    model.NotSrcNet br = apiv1.NotNet (apiv1.Source ar) /\
    model.NotSrcNets br = apiv1.NotNets (apiv1.Source ar) /\
    (* tags *)
    model.SrcTag br = apiv1.Tag (apiv1.Source ar) /\
    model.DstTag br = apiv1.Tag (apiv1.Destination ar) /\
    model.NotSrcTag br = apiv1.NotTag (apiv1.Source ar) /\
    model.NotDstTag br = apiv1.NotTag (apiv1.Destination ar) /\
    (* selectors *)
    model.SrcSelector br = apiv1.Selector (apiv1.Source ar) /\
    model.DstSelector br = apiv1.Selector (apiv1.Destination ar) /\
    model.NotSrcSelector br = apiv1.NotSelector (apiv1.Source ar) /\
    model.NotDstSelector br = apiv1.NotSelector (apiv1.Destination ar) /\
    (* ports *)
    model.SrcPorts br = apiv1.Ports (apiv1.Source ar) /\
    model.DstPorts br = apiv1.Ports (apiv1.Destination ar) /\
    model.NotSrcPorts br = apiv1.NotPorts (apiv1.Source ar) /\
    model.NotDstPorts br = apiv1.NotPorts (apiv1.Destination ar) /\
    (* IP version and protocols *)
    model.IPVersion br = apiv1.IPVersion ar /\
    model.Protocol br = apiv1.Protocol ar /\
    model.NotProtocol br = apiv1.NotProtocol ar.
Proof.
  do 2 eexists. split; [reflexivity |]. cbn. repeat split.
Qed.

(** The asymmetry on a rule holding 10.0.0.5/24 on both sides: the
    destination becomes 10.0.0.0/24, the source is stored as given. *)
Example unmasked_source_kept :
  let br := fst (ruleAPIToBackend sampleAPIRule freshLog) in
  model.SrcNet br = Some (ipv4 10 0 0 5 24) /\
  model.DstNet br = Some (ipv4 10 0 0 0 24) /\
  model.SrcNets br = Some [Some (ipv4 10 0 0 5 24); None] /\
  model.DstNets br = Some [Some (ipv4 10 0 0 0 24); None] /\
  model.NotSrcNet br = Some (ipv4 172 16 3 9 12) /\
  model.NotDstNet br = Some (ipv4 172 16 0 0 12).
Proof. vm_compute. repeat split. Qed.

Lemma is_some_true {A} (p : ptr A) : is_some p = true <-> p <> None.
Proof.
  destruct p; cbn; split; intros H; try reflexivity; try discriminate.
  contradiction.
Qed.

Lemma subfield_set_spec (code type : ptr Z) :
  is_some code || is_some type = true <-> subfield_set code type.
Proof.
  unfold subfield_set. rewrite Bool.orb_true_iff, !is_some_true. tauto.
Qed.

Section NetsAndICMP.

Variable IPNet_String : ptr net.IPNet -> string.
Variable ProtocolV3FromProtocolV1 :
  numorstring.Protocol -> numorstring.Protocol.

(** The string loop, once an output slice [out] is under construction. *)
Lemma netsToStrings_loop (l : list (ptr net.IPNet)) (out : slice string) :
  fold_left (fun out n => append out (IPNet_String n)) l out
  = match l with
    | [] => out
    | _ :: _ => Some (elems out ++ map IPNet_String l)
    end.
Proof.
  revert out; induction l as [| n l IH]; intros out; cbn.
  - reflexivity.
  - rewrite IH. destruct l as [| m l]; cbn.
    + reflexivity.
    + rewrite <- app_assoc. reflexivity.
Qed.

(** The output slice is allocated by the first [append] only. *)
Lemma netsToStrings_spec (nets : slice (ptr net.IPNet)) :
  netsToStrings IPNet_String nets
  = match elems nets with
    | [] => None
    | l => Some (map IPNet_String l)
    end.
Proof.
  unfold netsToStrings. rewrite netsToStrings_loop.
  destruct (elems nets); reflexivity.
Qed.

Lemma combineNets_absent (n : ptr net.IPNet) (nets : slice (ptr net.IPNet)) :
  n = None -> len nets = 0%nat -> elems (model.combineNets n nets) = [].
Proof.
  intros -> H. cbn. unfold len in H.
  destruct (elems nets); [reflexivity | discriminate].
Qed.

Lemma netsToStrings_absent (n : ptr net.IPNet) (nets : slice (ptr net.IPNet)) :
  n = None -> len nets = 0%nat ->
  netsToStrings IPNet_String (model.combineNets n nets) = None.
Proof.
  intros Hn Hl. rewrite netsToStrings_spec.
  rewrite (combineNets_absent n nets Hn Hl). reflexivity.
Qed.

(** C6.  Backend to current API: the ICMP (NotICMP) structure of the
    result is present exactly when the backend rule has its ICMP code or
    type set, it then carries those two values, and so is never a present
    structure with both fields unset.  Legacy API to backend: the code or
    type of the backend rule is set exactly when the legacy rule has the
    structure with that field set.  Hence across both legs the structure
    is present in the current API exactly when the legacy structure has
    at least one field set. *)
Theorem icmp_present_iff_subfield_set :
  (forall br p,
      model.Protocol br = Some p ->
      exists ar,
        ruleBackendToAPI IPNet_String ProtocolV3FromProtocolV1 br = Ok ar /\
        (apiv3.ICMP ar <> None
         <-> subfield_set (model.ICMPCode br) (model.ICMPType br)) /\
        (apiv3.NotICMP ar <> None
         <-> subfield_set (model.NotICMPCode br) (model.NotICMPType br)) /\
        (forall f, apiv3.ICMP ar = Some f ->
                   apiv3.Code f = model.ICMPCode br /\
                   apiv3.Type_ f = model.ICMPType br /\
                   subfield_set (apiv3.Code f) (apiv3.Type_ f)) /\
        (forall f, apiv3.NotICMP ar = Some f ->
                   apiv3.Code f = model.NotICMPCode br /\
                   apiv3.Type_ f = model.NotICMPType br /\
                   subfield_set (apiv3.Code f) (apiv3.Type_ f))) /\
  (forall ar st,
      let br := fst (ruleAPIToBackend ar st) in
      (subfield_set (model.ICMPCode br) (model.ICMPType br)
       <-> exists f, apiv1.ICMP ar = Some f /\
                     subfield_set (apiv1.Code f) (apiv1.Type_ f)) /\
      (subfield_set (model.NotICMPCode br) (model.NotICMPType br)
       <-> exists f, apiv1.NotICMP ar = Some f /\
                     subfield_set (apiv1.Code f) (apiv1.Type_ f))) /\
  (forall v1 st p,
      apiv1.Protocol v1 = Some p ->
      exists ar,
        ruleBackendToAPI IPNet_String ProtocolV3FromProtocolV1
          (fst (ruleAPIToBackend v1 st)) = Ok ar /\
        (apiv3.ICMP ar <> None
         <-> exists f, apiv1.ICMP v1 = Some f /\
                       subfield_set (apiv1.Code f) (apiv1.Type_ f)) /\
        (apiv3.NotICMP ar <> None
         <-> exists f, apiv1.NotICMP v1 = Some f /\
                       subfield_set (apiv1.Code f) (apiv1.Type_ f))).
Proof.
  assert (Leg2 : forall br p,
      model.Protocol br = Some p ->
      exists ar,
        ruleBackendToAPI IPNet_String ProtocolV3FromProtocolV1 br = Ok ar /\
        (apiv3.ICMP ar <> None
         <-> subfield_set (model.ICMPCode br) (model.ICMPType br)) /\
        (apiv3.NotICMP ar <> None
         <-> subfield_set (model.NotICMPCode br) (model.NotICMPType br)) /\
        (forall f, apiv3.ICMP ar = Some f ->
                   apiv3.Code f = model.ICMPCode br /\
                   apiv3.Type_ f = model.ICMPType br /\
                   subfield_set (apiv3.Code f) (apiv3.Type_ f)) /\
        (forall f, apiv3.NotICMP ar = Some f ->
                   apiv3.Code f = model.NotICMPCode br /\
                   apiv3.Type_ f = model.NotICMPType br /\
                   subfield_set (apiv3.Code f) (apiv3.Type_ f))).
  { intros br p HP. unfold ruleBackendToAPI. rewrite HP; cbn.
    eexists; split; [reflexivity |]; cbn.
    pose proof (subfield_set_spec (model.ICMPCode br) (model.ICMPType br))
      as S1.
    pose proof (subfield_set_spec (model.NotICMPCode br)
                  (model.NotICMPType br)) as S2.
    destruct (is_some (model.ICMPCode br) || is_some (model.ICMPType br));
      destruct (is_some (model.NotICMPCode br)
                || is_some (model.NotICMPType br));
      repeat split; intros; try discriminate; try tauto;
      try (exfalso; intuition congruence);
      match goal with
      | H : Some _ = Some _ |- _ => inversion H; subst; cbn
      end; try reflexivity; tauto. }
  assert (Leg1 : forall ar st,
      let br := fst (ruleAPIToBackend ar st) in
      (subfield_set (model.ICMPCode br) (model.ICMPType br)
       <-> exists f, apiv1.ICMP ar = Some f /\
                     subfield_set (apiv1.Code f) (apiv1.Type_ f)) /\
      (subfield_set (model.NotICMPCode br) (model.NotICMPType br)
       <-> exists f, apiv1.NotICMP ar = Some f /\
                     subfield_set (apiv1.Code f) (apiv1.Type_ f))).
  { intros ar st; cbn. unfold subfield_set. split.
    - destruct (apiv1.ICMP ar) as [f |]; split.
      + intros H; exists f; split; [reflexivity | exact H].
      + intros (f' & E & H); inversion E; subst; exact H.
      + intros [H | H]; contradiction.
      + intros (f' & E & _); discriminate.
    - destruct (apiv1.NotICMP ar) as [f |]; split.
      + intros H; exists f; split; [reflexivity | exact H].
      + intros (f' & E & H); inversion E; subst; exact H.
      + intros [H | H]; contradiction.
      + intros (f' & E & _); discriminate. }
  split; [exact Leg2 |]. split; [exact Leg1 |].
  intros v1 st p HP.
  destruct (Leg2 (fst (ruleAPIToBackend v1 st)) p HP)
    as (ar & E & I1 & I2 & _).
  destruct (Leg1 v1 st) as (J1 & J2).
  exists ar. split; [exact E |]. split.
  - rewrite I1. exact J1.
  - rewrite I2. exact J2.
Qed.

End NetsAndICMP.

Lemma icmp_present_iff_subfield_set_witness :
  exists ar,
    ruleBackendToAPI sampleString sampleProtocol
      (fst (ruleAPIToBackend sampleAPIRule freshLog)) = Ok ar /\
    (apiv3.ICMP ar <> None
     <-> exists f, apiv1.ICMP sampleAPIRule = Some f /\
                   subfield_set (apiv1.Code f) (apiv1.Type_ f)) /\
    (apiv3.NotICMP ar <> None
     <-> exists f, apiv1.NotICMP sampleAPIRule = Some f /\
                   subfield_set (apiv1.Code f) (apiv1.Type_ f)).
Proof.
  destruct (icmp_present_iff_subfield_set sampleString sampleProtocol)
    as (_ & _ & H).
  apply (H sampleAPIRule freshLog tcp). reflexivity.
Defined.

(** A legacy ICMP structure with neither field set disappears, one with
    only a type set is carried over. *)
Example empty_icmp_structure_dropped :
  match ruleBackendToAPI sampleString sampleProtocol
          (fst (ruleAPIToBackend sampleAPIRule freshLog)) with
  | Ok ar =>
      apiv3.ICMP ar = None /\
      apiv3.NotICMP ar
      = Some {| apiv3.Type_ := Some 8; apiv3.Code := None |}
  | _ => False
  end.
Proof. vm_compute. split; reflexivity. Qed.

Section ProtocolAndNets.

Variable IPNet_String : ptr net.IPNet -> string.
Variable ProtocolV3FromProtocolV1 :
  numorstring.Protocol -> numorstring.Protocol.

(** The rule conversion, with the protocol dereference singled out. *)
Lemma ruleBackendToAPI_protocol (br : model.Rule) :
  match model.Protocol br with
  | Some p =>
      exists ar,
        ruleBackendToAPI IPNet_String ProtocolV3FromProtocolV1 br = Ok ar /\
        apiv3.Protocol ar = Some (ProtocolV3FromProtocolV1 p)
  | None =>
      ruleBackendToAPI IPNet_String ProtocolV3FromProtocolV1 br
      = Panic nil_deref
  end.
Proof.
  unfold ruleBackendToAPI.
  destruct (model.Protocol br) as [p |]; cbn.
  - eexists; split; reflexivity.
  - reflexivity.
Qed.

(** C9.  A backend rule whose protocol is set always converts, and the
    protocol of the result is set (to the translated protocol); a backend
    rule whose protocol is nil makes the conversion panic on the nil
    dereference: no rule and no error value is returned. *)
Theorem protocol_is_required (br : model.Rule) :
  (forall p,
      model.Protocol br = Some p ->
      exists ar,
        ruleBackendToAPI IPNet_String ProtocolV3FromProtocolV1 br = Ok ar /\
        apiv3.Protocol ar = Some (ProtocolV3FromProtocolV1 p) /\
        apiv3.Protocol ar <> None) /\
  (model.Protocol br = None ->
   ruleBackendToAPI IPNet_String ProtocolV3FromProtocolV1 br
   = Panic nil_deref /\
   (forall ar, ruleBackendToAPI IPNet_String ProtocolV3FromProtocolV1 br
               <> Ok ar) /\
   (forall msg, ruleBackendToAPI IPNet_String ProtocolV3FromProtocolV1 br
                <> Err msg)).
Proof.
  pose proof (ruleBackendToAPI_protocol br) as H.
  split.
  - intros p HP. rewrite HP in H. destruct H as (ar & E & Q).
    exists ar. repeat split; try assumption. rewrite Q; discriminate.
  - intros HP. rewrite HP in H. rewrite H.
    repeat split; intros; discriminate.
Qed.

(** The same precondition for a whole rule list: it converts when every
    rule has its protocol set, and panics as soon as one has not. *)
Lemma rulesV1BackendToV3API_total (l : list model.Rule) :
  Forall (fun br => model.Protocol br <> None) l ->
  exists ars,
    rulesV1BackendToV3API IPNet_String ProtocolV3FromProtocolV1 (Some l)
    = Ok (Some ars).
Proof.
  intros H. cbn.
  assert (M : exists ars,
             mapM (ruleBackendToAPI IPNet_String ProtocolV3FromProtocolV1) l
             = Ok ars).
  { induction H as [| br l Hbr _ IH]; cbn.
    - eexists; reflexivity.
    - pose proof (ruleBackendToAPI_protocol br) as P.
      destruct (model.Protocol br) as [p |]; [| contradiction].
      destruct P as (ar & E & _). rewrite E; cbn.
      destruct IH as (ars & ->); cbn. eexists; reflexivity. }
  destruct M as (ars & ->). cbn. eexists; reflexivity.
Qed.

Lemma rulesV1BackendToV3API_panics (l : list model.Rule) :
  Exists (fun br => model.Protocol br = None) l ->
  rulesV1BackendToV3API IPNet_String ProtocolV3FromProtocolV1 (Some l)
  = Panic nil_deref.
Proof.
  intros H. cbn.
  assert (M : mapM (ruleBackendToAPI IPNet_String ProtocolV3FromProtocolV1) l
              = Panic nil_deref).
  { induction l as [| br l IH]; [inversion H |]. cbn.
    pose proof (ruleBackendToAPI_protocol br) as P.
    destruct (model.Protocol br) as [p |] eqn:E.
    - destruct P as (ar & -> & _); cbn.
      inversion H as [? ? Hn | ? ? Hl]; subst; [congruence |].
      rewrite (IH Hl). reflexivity.
    - rewrite P. reflexivity. }
  rewrite M. reflexivity.
Qed.

(** C10.  For a backend rule that converts, each of the four network
    string lists of the result - source and destination, match and negated
    match - is nil when the deprecated singular network is nil and the
    plural list has no element (it is nil or empty); in general the list
    is nil exactly when the rule enumerates no network on that side,
    since only [append] allocates it. *)
Theorem absent_networks_give_nil_nets
  (br : model.Rule) (p : numorstring.Protocol) :
  model.Protocol br = Some p ->
  exists ar,
    ruleBackendToAPI IPNet_String ProtocolV3FromProtocolV1 br = Ok ar /\
    (model.SrcNet br = None -> len (model.SrcNets br) = 0%nat ->
     apiv3.Nets (apiv3.Source ar) = None) /\
    (model.DstNet br = None -> len (model.DstNets br) = 0%nat ->
     apiv3.Nets (apiv3.Destination ar) = None) /\
    (model.NotSrcNet br = None -> len (model.NotSrcNets br) = 0%nat ->
     apiv3.NotNets (apiv3.Source ar) = None) /\
    (model.NotDstNet br = None -> len (model.NotDstNets br) = 0%nat ->
     apiv3.NotNets (apiv3.Destination ar) = None) /\
    (is_nil (apiv3.Nets (apiv3.Source ar)) = true
     <-> len (model.AllSrcNets br) = 0%nat) /\
    (is_nil (apiv3.Nets (apiv3.Destination ar)) = true
     <-> len (model.AllDstNets br) = 0%nat) /\
    (is_nil (apiv3.NotNets (apiv3.Source ar)) = true
     <-> len (model.AllNotSrcNets br) = 0%nat) /\
    (is_nil (apiv3.NotNets (apiv3.Destination ar)) = true
     <-> len (model.AllNotDstNets br) = 0%nat).
Proof.
  intros HP. unfold ruleBackendToAPI. rewrite HP; cbn.
  eexists; split; [reflexivity |]; cbn.
  assert (Iff : forall nets,
             is_nil (netsToStrings IPNet_String nets) = true
             <-> len nets = 0%nat).
  { intros nets. rewrite netsToStrings_spec. unfold len.
    destruct (elems nets); cbn; split; intros H;
      try reflexivity; discriminate. }
  repeat split; try (intros; apply netsToStrings_absent; assumption);
    apply Iff.
Qed.

End ProtocolAndNets.

Lemma protocol_is_required_witness :
  (exists ar,
      ruleBackendToAPI sampleString sampleProtocol sampleBackendRule = Ok ar /\
      apiv3.Protocol ar = Some (numorstring.ProtocolFromString "TCP") /\
      apiv3.Protocol ar <> None) /\
  ruleBackendToAPI sampleString sampleProtocol emptyBackendRule
  = Panic nil_deref.
Proof.
  split.
  - apply (proj1 (protocol_is_required sampleString sampleProtocol
                    sampleBackendRule) tcp).
    reflexivity.
  - apply (proj2 (protocol_is_required sampleString sampleProtocol
                    emptyBackendRule)).
    reflexivity.
Defined.

Lemma absent_networks_give_nil_nets_witness :
  exists ar,
    ruleBackendToAPI sampleString sampleProtocol sampleBackendRule = Ok ar /\
    apiv3.Nets (apiv3.Destination ar) = None /\
    apiv3.NotNets (apiv3.Source ar) = None.
Proof.
  destruct (absent_networks_give_nil_nets sampleString sampleProtocol
              sampleBackendRule tcp eq_refl)
    as (ar & E & _ & Hdst & Hnsrc & _).
  exists ar. split; [exact E |]. split.
  - apply Hdst; reflexivity.
  - apply Hnsrc; reflexivity.
Defined.

(** The sample rule: two source networks give two strings (plural list
    first), the empty destination list and the nil negated lists give
    nil. *)
Example sample_rule_nets :
  match ruleBackendToAPI sampleString sampleProtocol sampleBackendRule with
  | Ok ar =>
      apiv3.Nets (apiv3.Source ar) = Some ["wide"; "narrow"] /\
      apiv3.Nets (apiv3.Destination ar) = None /\
      apiv3.NotNets (apiv3.Source ar) = None /\
      apiv3.NotNets (apiv3.Destination ar) = None
  | _ => False
  end.
Proof. vm_compute. repeat split. Qed.

(* ------------------------------------------------------------------ *)
(** *** CIDR normalisation *)

Lemma Network_idempotent (n : net.IPNet) :
  net.Network (net.Network n) = net.Network n.
Proof.
  unfold net.Network, net.netmask, net.host_bits; cbn. f_equal.
  rewrite <- Z.land_assoc, Z.land_diag. reflexivity.
Qed.

Lemma shiftl_land_ones (x h : Z) :
  0 <= h -> Z.land (Z.shiftl x h) (Z.ones h) = 0.
Proof.
  intros Hh. apply Z.bits_inj'. intros i Hi.
  rewrite Z.land_spec, Z.bits_0.
  destruct (Z.lt_ge_cases i h) as [L | G].
  - rewrite Z.shiftl_spec_low by exact L. reflexivity.
  - rewrite Z.ones_spec_high by lia. apply Bool.andb_false_r.
Qed.

(** The normalised network has no host bit set. *)
Lemma Network_host_part (n : net.IPNet) :
  net.host_part (net.Network n) = 0.
Proof.
  unfold net.host_part, net.Network, net.netmask, net.host_bits; cbn.
  rewrite <- Z.land_assoc. rewrite shiftl_land_ones by lia.
  apply Z.land_0_r.
Qed.

(** An address without host bits is the network address of its prefix:
    shifting the host bits out and back in gives it again. *)
Lemma host_part_zero_network_address (n : net.IPNet) :
  net.host_part n = 0 ->
  net.address n
  = Z.shiftl (Z.shiftr (net.address n) (Z.of_nat (net.host_bits n)))
      (Z.of_nat (net.host_bits n)).
Proof.
  unfold net.host_part. set (h := Z.of_nat (net.host_bits n)).
  assert (Hh : 0 <= h) by (subst h; lia).
  intros H. apply Z.bits_inj'. intros i Hi.
  rewrite Z.shiftl_spec by exact Hi.
  destruct (Z.lt_ge_cases i h) as [L | G].
  - rewrite (Z.testbit_neg_r _ (i - h)) by lia.
    assert (T : Z.testbit (Z.land (net.address n) (Z.ones h)) i = false)
      by (rewrite H; apply Z.bits_0).
    rewrite Z.land_spec, Z.ones_spec_low in T by lia.
    rewrite Bool.andb_true_r in T. exact T.
  - rewrite Z.shiftr_spec by lia. f_equal. lia.
Qed.

Lemma normalizeIPNet_idempotent (n : ptr net.IPNet) :
  normalizeIPNet (normalizeIPNet n) = normalizeIPNet n.
Proof.
  destruct n as [x |]; cbn; [| reflexivity].
  rewrite Network_idempotent. reflexivity.
Qed.

Lemma normalizeIPNets_idempotent (nets : slice (ptr net.IPNet)) :
  normalizeIPNets (normalizeIPNets nets) = normalizeIPNets nets.
Proof.
  destruct nets as [l |]; cbn; [| reflexivity].
  f_equal. rewrite map_map. apply map_ext. apply normalizeIPNet_idempotent.
Qed.

(** C7.  CIDR normalisation maps nil to nil, for one network and for a
    slice (whose length and nil entries it keeps); it is idempotent on
    both; and every network it returns has all host bits beyond its
    prefix length equal to zero, so that its address is the network
    address of the prefix and normalising it again changes nothing. *)
Theorem cidr_normalization :
  normalizeIPNet None = None /\
  normalizeIPNets None = None /\
  (forall n, normalizeIPNet n = None <-> n = None) /\
  (forall nets, is_nil (normalizeIPNets nets) = is_nil nets /\
                len (normalizeIPNets nets) = len nets) /\
  (forall n, normalizeIPNet (normalizeIPNet n) = normalizeIPNet n) /\
  (forall nets,
      normalizeIPNets (normalizeIPNets nets) = normalizeIPNets nets) /\
  (forall n x,
      normalizeIPNet n = Some x ->
      net.host_part x = 0 /\
      net.address x
      = Z.shiftl (Z.shiftr (net.address x) (Z.of_nat (net.host_bits x)))
          (Z.of_nat (net.host_bits x)) /\
      net.Network x = x) /\
  (forall nets x,
      In (Some x) (elems (normalizeIPNets nets)) ->
      net.host_part x = 0 /\ net.Network x = x).
Proof.
  assert (One : forall n x,
             normalizeIPNet n = Some x ->
             net.host_part x = 0 /\ net.Network x = x).
  { intros [y |] x H; cbn in H; [| discriminate].
    inversion H; subst. split.
    - apply Network_host_part.
    - apply Network_idempotent. }
  split; [reflexivity |]. split; [reflexivity |].
  split.
  { intros [y |]; cbn; split; intros H; try discriminate; reflexivity. }
  split.
  { intros [l |]; cbn; [| split; reflexivity].
    split; [reflexivity |]. unfold len; cbn. apply length_map. }
  split; [exact normalizeIPNet_idempotent |].
  split; [exact normalizeIPNets_idempotent |].
  split.
  { intros n x H. destruct (One n x H) as (H0 & HN).
    split; [exact H0 |]. split; [| exact HN].
    apply host_part_zero_network_address; exact H0. }
  intros [l |] x H; cbn in H; [| contradiction].
  apply in_map_iff in H. destruct H as (n & E & _).
  exact (One n x E).
Qed.

Lemma cidr_normalization_witness :
  net.host_part (ipv4 10 0 0 0 24) = 0 /\
  net.address (ipv4 10 0 0 0 24)
  = Z.shiftl (Z.shiftr (net.address (ipv4 10 0 0 0 24)) 8) 8 /\
  net.Network (ipv4 10 0 0 0 24) = ipv4 10 0 0 0 24.
Proof.
  destruct cidr_normalization as (_ & _ & _ & _ & _ & _ & H & _).
  apply (H (Some (ipv4 10 0 0 5 24)) (ipv4 10 0 0 0 24)).
  reflexivity.
Defined.

(** 10.0.0.5/24 is normalised to 10.0.0.0/24, and an IPv6 network keeps
    the 64 bits of its prefix. *)
Example normalize_10_0_0_5 :
  normalizeIPNet (Some (ipv4 10 0 0 5 24)) = Some (ipv4 10 0 0 0 24) /\
  normalizeIPNets (Some [Some (ipv4 10 0 0 5 24); None; Some (ipv4 1 2 3 4 32)])
  = Some [Some (ipv4 10 0 0 0 24); None; Some (ipv4 1 2 3 4 32)] /\
  net.address
    (net.Network {| net.bits := 128;
                    net.address := 2 ^ 127 + 2 ^ 64 + 5;
                    net.prefix := 64 |})
  = 2 ^ 127 + 2 ^ 64.
Proof. vm_compute. repeat split. Qed.

(* ------------------------------------------------------------------ *)
(** *** Name normalisation *)

Lemma collapseRuns_hyphens (n m : nat) (u : string) :
  collapseRuns (Pending m) (hyphens n ++ u)%string
  = collapseRuns (Pending (m + n)) u.
Proof.
  revert m; induction n as [| n IH]; intros m; cbn.
  - rewrite Nat.add_0_r. reflexivity.
  - rewrite IH. rewrite Nat.add_succ_r. reflexivity.
Qed.

Lemma collapseRuns_only_hyphens (n m : nat) :
  collapseRuns (Pending m) (hyphens n) = hyphens (m + n).
Proof.
  revert m; induction n as [| n IH]; intros m; cbn.
  - rewrite Nat.add_0_r. reflexivity.
  - rewrite IH. rewrite Nat.add_succ_r. reflexivity.
Qed.

(** Scanning the output of a scan again: the second scan is in the state
    [Pending 0] wherever the first had only hyphens pending, and in the
    state [Collapsed] wherever the first had written its dot. *)
Lemma collapseRuns_rescan (t : string) :
  (forall n, collapseRuns (Pending 0) (collapseRuns (Pending n) t)
             = collapseRuns (Pending n) t) /\
  collapseRuns Collapsed (collapseRuns Collapsed t)
  = collapseRuns Collapsed t.
Proof.
  induction t as [| c t [IHp IHc]].
  - split; [| reflexivity].
    intros n. cbn. apply collapseRuns_only_hyphens.
  - split.
    + intros n. cbn [collapseRuns].
      destruct (is_alnum c) eqn:Ea.
      * cbn [flush]. rewrite collapseRuns_hyphens. cbn [collapseRuns].
        rewrite Ea. cbn [flush Nat.add]. rewrite IHp. reflexivity.
      * destruct (is_hyphen c); [apply IHp |].
        cbn. rewrite IHc. reflexivity.
    + cbn [collapseRuns].
      destruct (is_alnum c) eqn:Ea.
      * cbn [flush String.append collapseRuns]. rewrite Ea.
        cbn [flush String.append]. rewrite IHp. reflexivity.
      * destruct (is_hyphen c); exact IHc.
Qed.

Lemma is_alnum_not_upper (c : ascii) :
  is_alnum c = true -> lower_byte c = c.
Proof.
  unfold is_alnum, is_lower, is_digit, lower_byte, is_upper.
  intros H.
  destruct ((65 <=? N_of_ascii c) && (N_of_ascii c <=? 90))%N eqn:U;
    [| reflexivity].
  exfalso.
  apply Bool.andb_true_iff in U. destruct U as [U1 U2].
  apply N.leb_le in U1, U2.
  apply Bool.orb_true_iff in H.
  destruct H as [H | H]; apply Bool.andb_true_iff in H;
    destruct H as [H1 H2]; apply N.leb_le in H1, H2; lia.
Qed.

Lemma ToLower_app (a b : string) :
  ToLower (a ++ b)%string = (ToLower a ++ ToLower b)%string.
Proof.
  induction a as [| c a IH]; cbn; [reflexivity |]. rewrite IH. reflexivity.
Qed.

Lemma ToLower_hyphens (n : nat) : ToLower (hyphens n) = hyphens n.
Proof.
  induction n as [| n IH]; cbn; [reflexivity |]. rewrite IH. reflexivity.
Qed.

Lemma ToLower_flush (r : run) : ToLower (flush r) = flush r.
Proof. destruct r; cbn; [apply ToLower_hyphens | reflexivity]. Qed.

(** Whatever the scan writes is lower case already. *)
Lemma ToLower_collapseRuns (t : string) (r : run) :
  ToLower (collapseRuns r t) = collapseRuns r t.
Proof.
  revert r; induction t as [| c t IH]; intros r; cbn [collapseRuns].
  - apply ToLower_flush.
  - destruct (is_alnum c) eqn:Ea.
    + rewrite ToLower_app, ToLower_flush. cbn [ToLower].
      rewrite IH, (is_alnum_not_upper c Ea). reflexivity.
    + destruct (is_hyphen c); destruct r; try apply IH.
      cbn. rewrite IH. reflexivity.
Qed.

(** C8.  Normalising a normalised name gives it back, for every name;
    the normalised name is in lower case; and ["MaKe.-.MaKe"] becomes
    ["make.make"], the run dot-hyphen-dot collapsing to one dot (the
    other names of the policy table are only lower-cased). *)
Theorem convertName_idempotent :
  (forall N, convertName (convertName N) = convertName N) /\
  (forall N, ToLower (convertName N) = convertName N) /\
  convertName "MaKe.-.MaKe" = "make.make" /\
  convertName "namyMcPolicyName" = "namymcpolicyname" /\
  convertName "RAWR" = "rawr" /\
  convertName "meow" = "meow".
Proof.
  split.
  { intros N. unfold convertName.
    rewrite ToLower_collapseRuns.
    apply (proj1 (collapseRuns_rescan (ToLower N)) 0%nat). }
  split.
  { intros N. apply ToLower_collapseRuns. }
  repeat split.
Qed.

(** Lone hyphens are kept; a run holding a disallowed character becomes
    one dot, whatever its length. *)
Example convertName_runs :
  convertName "front-end" = "front-end" /\
  convertName "a--b" = "a--b" /\
  convertName "Web/App_01" = "web.app.01" /\
  convertName "a-._-b" = "a.b" /\
  convertName (convertName "a-._-b") = "a.b".
Proof. vm_compute. repeat split. Qed.

(* ------------------------------------------------------------------ *)
(** *** The forwarding flag *)

Section Forwarding.

Variable IPNet_String : ptr net.IPNet -> string.
Variable ProtocolV3FromProtocolV1 :
  numorstring.Protocol -> numorstring.Protocol.
Variable policyTypeToV3 : string -> apiv3.PolicyType.

(** C1.  Whenever a backend policy is converted, the ApplyOnForward flag
    of the result is [ApplyOnForward_in OR (DoNotTrack_in AND
    PreDNAT_in)], the other two flags being copied; the policy of the
    flag rows converts for every value of the three flags, and gives true
    for (true, true, false) and for (false, false, true), false for
    (false, false, false). *)
Theorem apply_on_forward_recomputed :
  (forall kvp ap,
      BackendV1ToAPIV3 IPNet_String ProtocolV3FromProtocolV1 policyTypeToV3 kvp
      = Ok ap ->
      exists bp,
        model.Value_ kvp = model.ValuePolicy bp /\
        apiv3.ApplyOnForward (apiv3.Spec ap)
        = model.ApplyOnForward bp
          || (model.DoNotTrack bp && model.PreDNAT bp) /\
        apiv3.DoNotTrack (apiv3.Spec ap) = model.DoNotTrack bp /\
        apiv3.PreDNAT (apiv3.Spec ap) = model.PreDNAT bp) /\
  (forall doNotTrack preDNAT applyOnForward,
      exists ap,
        BackendV1ToAPIV3 IPNet_String ProtocolV3FromProtocolV1 policyTypeToV3
          (flagsPolicy doNotTrack preDNAT applyOnForward) = Ok ap /\
        apiv3.ApplyOnForward (apiv3.Spec ap)
        = applyOnForward || (doNotTrack && preDNAT)) /\
  (exists ap,
      BackendV1ToAPIV3 IPNet_String ProtocolV3FromProtocolV1 policyTypeToV3
        (flagsPolicy true true false) = Ok ap /\
      apiv3.ApplyOnForward (apiv3.Spec ap) = true) /\
  (exists ap,
      BackendV1ToAPIV3 IPNet_String ProtocolV3FromProtocolV1 policyTypeToV3
        (flagsPolicy false false true) = Ok ap /\
      apiv3.ApplyOnForward (apiv3.Spec ap) = true) /\
  (exists ap,
      BackendV1ToAPIV3 IPNet_String ProtocolV3FromProtocolV1 policyTypeToV3
        (flagsPolicy false false false) = Ok ap /\
      apiv3.ApplyOnForward (apiv3.Spec ap) = false).
Proof.
  split.
  { intros [k v] ap H. unfold BackendV1ToAPIV3 in H. cbn in H.
    destruct v as [bp | kind]; [| destruct k; discriminate H].
    destruct k as [bk | kind]; [| discriminate H].
    destruct (rulesV1BackendToV3API _ _ (model.InboundRules bp))
      as [ingress | |]; cbn in H; try discriminate H.
    destruct (rulesV1BackendToV3API _ _ (model.OutboundRules bp))
      as [egress | |]; cbn in H; try discriminate H.
    inversion H; subst; cbn.
    exists bp. repeat split. }
  repeat split; try (intros; eexists; split; reflexivity);
    eexists; split; reflexivity.
Qed.

End Forwarding.

Lemma apply_on_forward_recomputed_witness :
  exists bp,
    model.Value_ (flagsPolicy true true false) = model.ValuePolicy bp /\
    true = model.ApplyOnForward bp
           || (model.DoNotTrack bp && model.PreDNAT bp) /\
    true = model.DoNotTrack bp /\
    true = model.PreDNAT bp.
Proof.
  destruct (apply_on_forward_recomputed sampleString sampleProtocol
              samplePolicyType) as (H & _).
  refine (H (flagsPolicy true true false)
            {| apiv3.Name := "rawr";
               apiv3.Spec :=
                 {| apiv3.Order := Some 4652007308841189376;
                    apiv3.Ingress := _;
                    apiv3.Egress := Some [];
                    apiv3.Selector_ := EmptyString;
                    apiv3.DoNotTrack := true;
                    apiv3.PreDNAT := true;
                    apiv3.ApplyOnForward := true;
                    apiv3.Types := Some [apiv3.PolicyTypeIngress] |} |} _).
  vm_compute. reflexivity.
Defined.

(** The flag row ["RAWR"] of the policy table, converted in full. *)
Example rawr_policy_converted :
  match BackendV1ToAPIV3 sampleString sampleProtocol samplePolicyType
          (flagsPolicy true true false) with
  | Ok ap =>
      apiv3.Name ap = "rawr" /\
      apiv3.ApplyOnForward (apiv3.Spec ap) = true /\
      apiv3.Egress (apiv3.Spec ap) = Some [] /\
      len (apiv3.Ingress (apiv3.Spec ap)) = 1%nat /\
      apiv3.Types (apiv3.Spec ap) = Some [apiv3.PolicyTypeIngress]
  | _ => False
  end.
Proof. vm_compute. repeat split. Qed.

(** A key/value pair of another kind is reported as an error, and a rule
    without protocol makes the policy conversion panic. *)
Example policy_conversion_failures :
  BackendV1ToAPIV3 sampleString sampleProtocol samplePolicyType
    {| model.Key_ := model.KeyPolicy {| model.Name := "p" |};
       model.Value_ := model.ValueOther "Profile" |}
  = Err "value is not a valid Policy resource" /\
  BackendV1ToAPIV3 sampleString sampleProtocol samplePolicyType
    {| model.Key_ := model.KeyPolicy {| model.Name := "p" |};
       model.Value_ :=
         model.ValuePolicy
           {| model.Order := None;
              model.InboundRules := Some [sampleBackendRule; emptyBackendRule];
              model.OutboundRules := None;
              model.Selector := EmptyString;
              model.DoNotTrack := false;
              model.PreDNAT := false;
              model.ApplyOnForward := false;
              model.Types := None |} |}
  = Panic nil_deref.
Proof. vm_compute. split; reflexivity. Qed.

(* ================================================================== *)
(** ** Further properties of rule.go *)

(** *** Rule lists, legacy API to backend *)

Lemma rulesAPIToBackend_loop_cons
  (ar : apiv1.Rule) (rest : list apiv1.Rule) (st : LogState) :
  rulesAPIToBackend_loop (ar :: rest) st
  = (fst (ruleAPIToBackend ar st)
       :: fst (rulesAPIToBackend_loop rest (snd (ruleAPIToBackend ar st))),
     snd (rulesAPIToBackend_loop rest (snd (ruleAPIToBackend ar st)))).
Proof.
  change (rulesAPIToBackend_loop (ar :: rest) st)
    with (let (br, st1) := ruleAPIToBackend ar st in
          let (brs, st2) := rulesAPIToBackend_loop rest st1 in
          (br :: brs, st2)).
  destruct (ruleAPIToBackend ar st) as [br st1]. cbn [fst snd].
  destruct (rulesAPIToBackend_loop rest st1) as [brs st2]. reflexivity.
Qed.

(** X1.  The backend rules are the conversions of the legacy rules, one
    for one and in the same order, and they do not depend on the state of
    the once-only warning: the list converted from any log state [st] is
    the list of the rules converted from any other log state [st0]. *)
Theorem rules_converted_in_order
  (ars : slice apiv1.Rule) (st st0 : LogState) :
  fst (rulesAPIToBackend ars st)
  = Some (map (fun ar => fst (ruleAPIToBackend ar st0)) (elems ars)).
Proof.
  destruct ars as [l |]; [| reflexivity].
  unfold rulesAPIToBackend. cbn [elems].
  assert (L : fst (rulesAPIToBackend_loop l st)
              = map (fun ar => fst (ruleAPIToBackend ar st0)) l).
  { revert st; induction l as [| ar l IH]; intros st.
    - reflexivity.
    - rewrite rulesAPIToBackend_loop_cons. cbn [fst map].
      rewrite IH. reflexivity. }
  destruct (rulesAPIToBackend_loop l st) as [brs st']. cbn [fst] in *.
  rewrite L. reflexivity.
Qed.

(** *** The deprecation warning *)

Lemma ruleAPIToBackend_warns (ar : apiv1.Rule) (st : LogState) :
  snd (ruleAPIToBackend ar st)
  = if negb (onceDone st) && usesDeprecatedNet ar then warned st else st.
Proof.
  unfold ruleAPIToBackend, usesDeprecatedNet; cbn [snd].
  destruct (is_some (apiv1.Net (apiv1.Source ar))
            || is_some (apiv1.NotNet (apiv1.Source ar))
            || is_some (apiv1.Net (apiv1.Destination ar))
            || is_some (apiv1.NotNet (apiv1.Destination ar))).
  - unfold logDeprecationOnce_Do, warned.
    destruct (onceDone st); reflexivity.
  - rewrite Bool.andb_false_r. reflexivity.
Qed.

Lemma rulesAPIToBackend_loop_warns (l : list apiv1.Rule) (st : LogState) :
  snd (rulesAPIToBackend_loop l st)
  = if negb (onceDone st) && existsb usesDeprecatedNet l
    then warned st else st.
Proof.
  revert st; induction l as [| ar l IH]; intros st.
  - cbn. rewrite Bool.andb_false_r. reflexivity.
  - rewrite rulesAPIToBackend_loop_cons. cbn [snd existsb].
    rewrite IH, ruleAPIToBackend_warns.
    destruct (onceDone st) eqn:D; cbn [negb andb].
    + rewrite D. reflexivity.
    + destruct (usesDeprecatedNet ar); cbn [orb].
      * reflexivity.
      * rewrite D. reflexivity.
Qed.

(** X2.  Converting a rule list writes the deprecation warning exactly
    when the warning has not been written before and some rule of the
    list sets [Net] or [NotNet] on its source or destination; it then
    writes that one line and marks the guard as done.  In every other
    case the log state is returned as it was; so two conversions in a row
    add at most one line, and none once the guard is done. *)
Theorem deprecation_warning_once
  (ars ars' : slice apiv1.Rule) (st : LogState) :
  snd (rulesAPIToBackend ars st)
  = (if negb (onceDone st) && existsb usesDeprecatedNet (elems ars)
     then warned st else st) /\
  (List.length
     (logLines (snd (rulesAPIToBackend ars' (snd (rulesAPIToBackend ars st)))))
   <= S (List.length (logLines st)))%nat /\
  (onceDone st = true ->
   snd (rulesAPIToBackend ars' (snd (rulesAPIToBackend ars st))) = st).
Proof.
  assert (One : forall a s,
             snd (rulesAPIToBackend a s)
             = if negb (onceDone s) && existsb usesDeprecatedNet (elems a)
               then warned s else s).
  { intros [l |] s; cbn [elems].
    - unfold rulesAPIToBackend.
      pose proof (rulesAPIToBackend_loop_warns l s) as W.
      destruct (rulesAPIToBackend_loop l s) as [brs s']. exact W.
    - cbn. rewrite Bool.andb_false_r. reflexivity. }
  split; [apply One |].
  rewrite (One ars' _), (One ars st).
  destruct (onceDone st) eqn:D; cbn [negb andb].
  - rewrite D; cbn [negb andb]. split; [lia | reflexivity].
  - split; [| discriminate].
    destruct (existsb usesDeprecatedNet (elems ars)).
    + cbn [warned onceDone negb andb].
      unfold warned; cbn [logLines].
      rewrite length_app; cbn [List.length]. lia.
    + rewrite D; cbn [negb andb].
      destruct (existsb usesDeprecatedNet (elems ars'));
        [unfold warned; cbn [logLines]; rewrite length_app;
         cbn [List.length] |]; lia.
Qed.

Lemma deprecation_warning_once_witness :
  snd (rulesAPIToBackend (Some [sampleAPIRule])
         (snd (rulesAPIToBackend (Some [sampleAPIRule; sampleAPIRule])
                (warned freshLog))))
  = warned freshLog.
Proof.
  apply (deprecation_warning_once
           (Some [sampleAPIRule; sampleAPIRule]) (Some [sampleAPIRule])
           (warned freshLog)).
  reflexivity.
Defined.

(** A fresh log gets the line once for two rules with deprecated fields;
    a rule that only uses tags does not trigger it. *)
Example warning_examples :
  logLines (snd (rulesAPIToBackend (Some [sampleAPIRule; sampleAPIRule])
                   freshLog))
  = [deprecationWarning] /\
  snd (rulesAPIToBackend
         (Some [{| apiv1.Action := "Allow";
                   apiv1.IPVersion := None;
                   apiv1.Protocol := None;
                   apiv1.ICMP := None;
                   apiv1.NotProtocol := None;
                   apiv1.NotICMP := None;
                   apiv1.Source :=
                     {| apiv1.Tag := "tag1";
                        apiv1.Net := None;
                        apiv1.Nets := Some [Some (ipv4 10 0 0 5 24)];
                        apiv1.Selector := EmptyString;
                        apiv1.Ports := None;
                        apiv1.NotTag := "tag2";
                        apiv1.NotNet := None;
                        apiv1.NotNets := None;
                        apiv1.NotSelector := EmptyString;
                        apiv1.NotPorts := None |};
                   apiv1.Destination := emptyEntityRule |}])
         freshLog)
  = freshLog.
Proof. vm_compute. split; reflexivity. Qed.

(** *** Actions *)

Lemma matchAction_In (a : string) (cs : list apiv3.Action) (c : apiv3.Action) :
  matchAction a cs = Some c -> In c cs.
Proof.
  induction cs as [| c' cs IH]; cbn; intros H; [discriminate |].
  destruct (String.eqb (ToLower a) (ToLower c')).
  - inversion H; left; reflexivity.
  - right; apply IH; exact H.
Qed.

(** X3.  The action of the current API is in normal form: converting it
    again gives it back, and it is never the empty action nor the backend
    token ["next-tier"]. *)
Theorem ruleActionToV3API_normal_form (a : string) :
  ruleActionToV3API (ruleActionToV3API a) = ruleActionToV3API a /\
  ruleActionToV3API a <> EmptyString /\
  ruleActionToV3API a <> "next-tier".
Proof.
  assert (Cases :
            In (ruleActionToV3API a)
               [apiv3.Allow; apiv3.Deny; apiv3.Log; apiv3.Pass] \/
            (ruleActionToV3API a = a /\ a <> EmptyString /\
             a <> "next-tier" /\
             matchAction a [apiv3.Allow; apiv3.Deny; apiv3.Log; apiv3.Pass]
             = None)).
  { unfold ruleActionToV3API.
    destruct (String.eqb_spec a EmptyString) as [E | E];
      [left; left; reflexivity |].
    destruct (String.eqb_spec a "next-tier") as [E' | E'];
      [left; right; right; right; left; reflexivity |].
    destruct (matchAction a [apiv3.Allow; apiv3.Deny; apiv3.Log; apiv3.Pass])
      as [c |] eqn:M.
    - left. apply matchAction_In in M. exact M.
    - right. repeat split; assumption. }
  destruct Cases as [M | (R & E & E' & M)].
  - cbn in M.
    destruct M as [<- | [<- | [<- | [<- | []]]]];
      repeat split; try reflexivity; discriminate.
  - rewrite R. repeat split; assumption.
Qed.

(** X4.  Going through the backend is transparent for actions: a legacy
    action converted to the backend and then to the current API gives the
    same action as converting the legacy string directly. *)
Theorem action_through_backend (a : string) :
  ruleActionToV3API (ruleActionAPIToBackend a) = ruleActionToV3API a.
Proof.
  unfold ruleActionAPIToBackend.
  destruct (String.eqb_spec a "Pass") as [-> | _]; reflexivity.
Qed.

(** X5.  The backend never stores the action ["Pass"], and two legacy
    actions are stored as the same backend action only if they are equal
    or are ["Pass"] and ["next-tier"]. *)
Theorem ruleActionAPIToBackend_collisions :
  (forall a, ruleActionAPIToBackend a <> "Pass") /\
  (forall a b,
      ruleActionAPIToBackend a = ruleActionAPIToBackend b ->
      a = b \/
      (a = "Pass" /\ b = "next-tier") \/
      (a = "next-tier" /\ b = "Pass")).
Proof.
  unfold ruleActionAPIToBackend. split.
  - intros a. destruct (String.eqb_spec a "Pass"); [discriminate | assumption].
  - intros a b.
    destruct (String.eqb_spec a "Pass") as [-> | Ha];
      destruct (String.eqb_spec b "Pass") as [-> | Hb]; intros H.
    + left; reflexivity.
    + right; left. split; [reflexivity | symmetry; exact H].
    + right; right. split; [exact H | reflexivity].
    + left; exact H.
Qed.

Lemma ruleActionAPIToBackend_collisions_witness :
  "Pass" = "next-tier" \/
  ("Pass" = "Pass" /\ "next-tier" = "next-tier") \/
  ("Pass" = "next-tier" /\ "next-tier" = "Pass").
Proof.
  apply (proj2 ruleActionAPIToBackend_collisions "Pass" "next-tier").
  reflexivity.
Defined.

(** *** Rule lists, backend to current API *)

Lemma mapM_Forall2 {A B} (f : A -> result B) (xs : list A) (ys : list B) :
  mapM f xs = Ok ys <-> Forall2 (fun x y => f x = Ok y) xs ys.
Proof.
  revert ys; induction xs as [| x xs IH]; intros ys; cbn.
  - split; intros H.
    + inversion H; constructor.
    + inversion H; reflexivity.
  - split; intros H.
    + destruct (f x) as [y | m | m] eqn:E; cbn in H; try discriminate.
      destruct (mapM f xs) as [zs | m | m]; cbn in H; try discriminate.
      inversion H; subst. constructor; [exact E |].
      apply IH; reflexivity.
    + inversion H as [| ? y ? zs E R]; subst.
      rewrite E; cbn. apply IH in R. rewrite R. reflexivity.
Qed.

Section RuleLists.

Variable IPNet_String : ptr net.IPNet -> string.
Variable ProtocolV3FromProtocolV1 :
  numorstring.Protocol -> numorstring.Protocol.

(** X6.  Converting a non-nil backend rule list either returns the rules
    converted one for one in the same order, which happens exactly when
    every rule has its protocol set, or panics on the nil dereference,
    which happens exactly when some rule has none; it never returns an
    error value. *)
Theorem rulesV1BackendToV3API_outcome (l : list model.Rule) :
  (Forall (fun br => model.Protocol br <> None) l ->
   exists ars,
     rulesV1BackendToV3API IPNet_String ProtocolV3FromProtocolV1 (Some l)
     = Ok (Some ars) /\
     Forall2
       (fun br ar =>
          ruleBackendToAPI IPNet_String ProtocolV3FromProtocolV1 br = Ok ar)
       l ars) /\
  (Exists (fun br => model.Protocol br = None) l ->
   rulesV1BackendToV3API IPNet_String ProtocolV3FromProtocolV1 (Some l)
   = Panic nil_deref) /\
  (forall ars,
      rulesV1BackendToV3API IPNet_String ProtocolV3FromProtocolV1 (Some l)
      = Ok ars ->
      Forall (fun br => model.Protocol br <> None) l) /\
  (forall msg,
      rulesV1BackendToV3API IPNet_String ProtocolV3FromProtocolV1 (Some l)
      <> Err msg).
Proof.
  assert (Dec : Forall (fun br => model.Protocol br <> None) l \/
                Exists (fun br => model.Protocol br = None) l).
  { induction l as [| br l [IH | IH]].
    - left; constructor.
    - destruct (model.Protocol br) eqn:E.
      + left; constructor; [rewrite E; discriminate | exact IH].
      + right; constructor; exact E.
    - right; apply Exists_cons_tl; exact IH. }
  split; [| split; [| split]].
  - intros H.
    destruct (rulesV1BackendToV3API_total IPNet_String
                ProtocolV3FromProtocolV1 l H) as (ars & E).
    exists ars. split; [exact E |].
    cbn in E. apply mapM_Forall2.
    destruct (mapM _ l); cbn in E; try discriminate.
    inversion E; reflexivity.
  - apply rulesV1BackendToV3API_panics.
  - intros ars E. destruct Dec as [F | X]; [exact F |].
    rewrite (rulesV1BackendToV3API_panics IPNet_String
               ProtocolV3FromProtocolV1 l X) in E.
    discriminate.
  - intros msg E. destruct Dec as [F | X].
    + destruct (rulesV1BackendToV3API_total IPNet_String
                  ProtocolV3FromProtocolV1 l F) as (ars & E').
      rewrite E' in E; discriminate.
    + rewrite (rulesV1BackendToV3API_panics IPNet_String
                 ProtocolV3FromProtocolV1 l X) in E.
      discriminate.
Qed.

(** X7.  Across both legs a legacy rule list never arrives as nil: a nil
    legacy list is converted to the empty non-nil list of the current
    API, and whenever the two conversions return, the result is non-nil
    and as long as the legacy list.  They return exactly when every
    legacy rule has its protocol set, and panic when one has not,
    whatever the log state. *)
Theorem legacy_rules_through_backend
  (ars : slice apiv1.Rule) (st : LogState) :
  rulesV1BackendToV3API IPNet_String ProtocolV3FromProtocolV1
    (fst (rulesAPIToBackend None st)) = Ok (Some []) /\
  (forall r,
      rulesV1BackendToV3API IPNet_String ProtocolV3FromProtocolV1
        (fst (rulesAPIToBackend ars st)) = Ok r ->
      is_nil r = false /\ len r = len ars /\
      Forall (fun ar => apiv1.Protocol ar <> None) (elems ars)) /\
  (Forall (fun ar => apiv1.Protocol ar <> None) (elems ars) ->
   exists r,
     rulesV1BackendToV3API IPNet_String ProtocolV3FromProtocolV1
       (fst (rulesAPIToBackend ars st)) = Ok (Some r)) /\
  (Exists (fun ar => apiv1.Protocol ar = None) (elems ars) ->
   rulesV1BackendToV3API IPNet_String ProtocolV3FromProtocolV1
     (fst (rulesAPIToBackend ars st)) = Panic nil_deref).
Proof.
  rewrite (rules_converted_in_order ars st st).
  set (f := fun ar => fst (ruleAPIToBackend ar st)).
  destruct (rulesV1BackendToV3API_outcome (map f (elems ars)))
    as (Hok & Hpanic & Hback & _).
  split; [reflexivity |]. split; [| split].
  - intros r E.
    pose proof (proj1 (Forall_map f
                         (fun br => model.Protocol br <> None) (elems ars))
                  (Hback r E)) as F.
    destruct (Hok (Hback r E)) as (rs & E' & F2).
    rewrite E' in E. inversion E; subst r.
    split; [reflexivity |]. split; [| exact F].
    unfold len; cbn [elems].
    apply Forall2_length in F2. rewrite length_map in F2.
    symmetry; exact F2.
  - intros F.
    assert (F' : Forall (fun br => model.Protocol br <> None)
                   (map f (elems ars))) by (apply (Forall_map f
                                (fun br => model.Protocol br <> None));
                       exact F).
    destruct (Hok F') as (rs & E & _).
    exists rs; exact E.
  - intros X. apply Hpanic.
    apply (Exists_map f (fun br => model.Protocol br = None)). exact X.
Qed.

End RuleLists.

Lemma rulesV1BackendToV3API_outcome_witness :
  (exists ars,
      rulesV1BackendToV3API sampleString sampleProtocol
        (Some [sampleBackendRule; sampleBackendRule]) = Ok (Some ars) /\
      Forall2
        (fun br ar => ruleBackendToAPI sampleString sampleProtocol br = Ok ar)
        [sampleBackendRule; sampleBackendRule] ars) /\
  rulesV1BackendToV3API sampleString sampleProtocol
    (Some [sampleBackendRule; emptyBackendRule]) = Panic nil_deref.
Proof.
  split.
  - apply (proj1 (rulesV1BackendToV3API_outcome sampleString sampleProtocol
                    [sampleBackendRule; sampleBackendRule])).
    repeat constructor; discriminate.
  - apply (proj1 (proj2 (rulesV1BackendToV3API_outcome sampleString
                           sampleProtocol
                           [sampleBackendRule; emptyBackendRule]))).
    apply Exists_cons_tl. constructor. reflexivity.
Defined.

Lemma legacy_rules_through_backend_witness :
  (exists r,
      rulesV1BackendToV3API sampleString sampleProtocol
        (fst (rulesAPIToBackend (Some [sampleAPIRule]) freshLog))
      = Ok (Some r)) /\
  rulesV1BackendToV3API sampleString sampleProtocol
    (fst (rulesAPIToBackend (Some [sampleAPIRule; emptyAPIRule]) freshLog))
  = Panic nil_deref.
Proof.
  destruct (legacy_rules_through_backend sampleString sampleProtocol
              (Some [sampleAPIRule]) freshLog) as (_ & _ & Hok & _).
  destruct (legacy_rules_through_backend sampleString sampleProtocol
              (Some [sampleAPIRule; emptyAPIRule]) freshLog)
    as (_ & _ & _ & Hpanic).
  split.
  - apply Hok. repeat constructor; discriminate.
  - apply Hpanic. apply Exists_cons_tl. constructor. reflexivity.
Defined.

(** *** One rule, backend to current API *)

Lemma string_length_append (a b : string) :
  String.length (a ++ b)%string = (String.length a + String.length b)%nat.
Proof.
  induction a as [| c a IH]; cbn; [reflexivity |]. rewrite IH. reflexivity.
Qed.

Lemma tagToSelector_nonempty (selector tag : string) :
  tag <> EmptyString ->
  tagToSelector selector tag <> EmptyString /\
  String.length (tagToSelector selector tag)
  = (String.length selector + String.length tag + 12)%nat.
Proof.
  intros H. unfold tagToSelector, sprintf_tag_selector.
  destruct (String.eqb_spec tag EmptyString) as [E | _]; [contradiction |].
  cbn [negb]. split; [cbn; discriminate |].
  rewrite !string_length_append. cbn [String.length]. lia.
Qed.

Section OneRule.

Variable IPNet_String : ptr net.IPNet -> string.
Variable ProtocolV3FromProtocolV1 :
  numorstring.Protocol -> numorstring.Protocol.

(** X8.  For a backend rule that converts, each of the four network
    string lists holds one string per network the rule enumerates on that
    side, in the same order: the strings of [AllSrcNets], [AllDstNets],
    [AllNotSrcNets] and [AllNotDstNets]. *)
Theorem nets_converted_in_order
  (br : model.Rule) (p : numorstring.Protocol) :
  model.Protocol br = Some p ->
  exists ar,
    ruleBackendToAPI IPNet_String ProtocolV3FromProtocolV1 br = Ok ar /\
    elems (apiv3.Nets (apiv3.Source ar))
    = map IPNet_String (elems (model.AllSrcNets br)) /\
    elems (apiv3.Nets (apiv3.Destination ar))
    = map IPNet_String (elems (model.AllDstNets br)) /\
    elems (apiv3.NotNets (apiv3.Source ar))
    = map IPNet_String (elems (model.AllNotSrcNets br)) /\
    elems (apiv3.NotNets (apiv3.Destination ar))
    = map IPNet_String (elems (model.AllNotDstNets br)).
Proof.
  intros HP. unfold ruleBackendToAPI. rewrite HP; cbn.
  eexists; split; [reflexivity |]; cbn.
  assert (E : forall nets,
             elems (netsToStrings IPNet_String nets)
             = map IPNet_String (elems nets)).
  { intros nets. rewrite netsToStrings_spec.
    destruct (elems nets); reflexivity. }
  repeat split; apply E.
Qed.

(** X9.  A tag never folds into the empty, match-all selector: for a
    backend rule that converts, a selector whose tag is not empty is not
    empty, and is 12 bytes longer than the rule's selector and tag
    together - also when the rule's selector is empty. *)
Theorem tagged_selector_never_empty
  (br : model.Rule) (p : numorstring.Protocol) :
  model.Protocol br = Some p ->
  exists ar,
    ruleBackendToAPI IPNet_String ProtocolV3FromProtocolV1 br = Ok ar /\
    (model.SrcTag br <> EmptyString ->
     apiv3.Selector (apiv3.Source ar) <> EmptyString /\
     String.length (apiv3.Selector (apiv3.Source ar))
     = (String.length (model.SrcSelector br)
        + String.length (model.SrcTag br) + 12)%nat) /\
    (model.DstTag br <> EmptyString ->
     apiv3.Selector (apiv3.Destination ar) <> EmptyString /\
     String.length (apiv3.Selector (apiv3.Destination ar))
     = (String.length (model.DstSelector br)
        + String.length (model.DstTag br) + 12)%nat) /\
    (model.NotSrcTag br <> EmptyString ->
     apiv3.NotSelector (apiv3.Source ar) <> EmptyString /\
     String.length (apiv3.NotSelector (apiv3.Source ar))
     = (String.length (model.NotSrcSelector br)
        + String.length (model.NotSrcTag br) + 12)%nat) /\
    (model.NotDstTag br <> EmptyString ->
     apiv3.NotSelector (apiv3.Destination ar) <> EmptyString /\
     String.length (apiv3.NotSelector (apiv3.Destination ar))
     = (String.length (model.NotDstSelector br)
        + String.length (model.NotDstTag br) + 12)%nat).
Proof.
  intros HP. unfold ruleBackendToAPI. rewrite HP; cbn.
  eexists; split; [reflexivity |]; cbn.
  repeat apply conj; apply tagToSelector_nonempty.
Qed.

(** X10.  A legacy rule taken through both legs: with its protocol set
    it always converts, whatever the log state, to the rule whose action
    is the legacy action converted directly, whose protocol is the
    translated legacy protocol, whose four selectors are the legacy
    selectors with the legacy tags folded in, and whose IP version,
    negated protocol and four port lists are the legacy ones; with a nil
    protocol the second leg panics. *)
Theorem legacy_rule_through_backend (v1 : apiv1.Rule) (st : LogState) :
  match apiv1.Protocol v1 with
  | Some p =>
      exists ar,
        ruleBackendToAPI IPNet_String ProtocolV3FromProtocolV1
          (fst (ruleAPIToBackend v1 st)) = Ok ar /\
        apiv3.Action_ ar = ruleActionToV3API (apiv1.Action v1) /\
        apiv3.Protocol ar = Some (ProtocolV3FromProtocolV1 p) /\
        apiv3.NotProtocol ar = apiv1.NotProtocol v1 /\
        apiv3.IPVersion ar = apiv1.IPVersion v1 /\
        merged (apiv1.Selector (apiv1.Source v1)) (apiv1.Tag (apiv1.Source v1))
               (apiv3.Selector (apiv3.Source ar)) /\
        merged (apiv1.Selector (apiv1.Destination v1))
               (apiv1.Tag (apiv1.Destination v1))
               (apiv3.Selector (apiv3.Destination ar)) /\
        merged (apiv1.NotSelector (apiv1.Source v1))
               (apiv1.NotTag (apiv1.Source v1))
               (apiv3.NotSelector (apiv3.Source ar)) /\
        merged (apiv1.NotSelector (apiv1.Destination v1))
               (apiv1.NotTag (apiv1.Destination v1))
               (apiv3.NotSelector (apiv3.Destination ar)) /\
        apiv3.Ports (apiv3.Source ar) = apiv1.Ports (apiv1.Source v1) /\
        apiv3.Ports (apiv3.Destination ar)
        = apiv1.Ports (apiv1.Destination v1) /\
        apiv3.NotPorts (apiv3.Source ar) = apiv1.NotPorts (apiv1.Source v1) /\
        apiv3.NotPorts (apiv3.Destination ar)
        = apiv1.NotPorts (apiv1.Destination v1)
  | None =>
      ruleBackendToAPI IPNet_String ProtocolV3FromProtocolV1
        (fst (ruleAPIToBackend v1 st)) = Panic nil_deref
  end.
Proof.
  unfold ruleBackendToAPI, ruleAPIToBackend; cbn.
  destruct (apiv1.Protocol v1) as [p |]; cbn; [| reflexivity].
  eexists; split; [reflexivity |]; cbn.
  split; [apply action_through_backend |].
  repeat apply conj; try reflexivity; apply tagToSelector_merged.
Qed.

End OneRule.

Lemma nets_converted_in_order_witness :
  exists ar,
    ruleBackendToAPI sampleString sampleProtocol sampleBackendRule = Ok ar /\
    elems (apiv3.Nets (apiv3.Source ar)) = ["wide"; "narrow"] /\
    elems (apiv3.Nets (apiv3.Destination ar)) = [] /\
    elems (apiv3.NotNets (apiv3.Source ar)) = [] /\
    elems (apiv3.NotNets (apiv3.Destination ar)) = [].
Proof.
  apply (nets_converted_in_order sampleString sampleProtocol
           sampleBackendRule tcp).
  reflexivity.
Defined.

Lemma tagged_selector_never_empty_witness :
  exists ar,
    ruleBackendToAPI sampleString sampleProtocol sampleBackendRule = Ok ar /\
    apiv3.Selector (apiv3.Source ar) <> EmptyString /\
    String.length (apiv3.Selector (apiv3.Source ar)) = 34%nat /\
    apiv3.NotSelector (apiv3.Source ar) <> EmptyString /\
    String.length (apiv3.NotSelector (apiv3.Source ar)) = 16%nat.
Proof.
  destruct (tagged_selector_never_empty sampleString sampleProtocol
              sampleBackendRule tcp eq_refl)
    as (ar & E & Hsrc & _ & Hnsrc & _).
  exists ar. split; [exact E |].
  destruct Hsrc as (N1 & L1); [discriminate |].
  destruct Hnsrc as (N2 & L2); [discriminate |].
  repeat split; assumption.
Defined.
